(** * Multimodal affect and risk engine: emotion fusion, depression scoring,
      chat turns and risk aggregation

    A shallow embedding of [emotion_model.py] ([EmotionDetector]),
    [chat_service.py] ([ChatService.send_message]) and of the risk badge and
    report summary of [app.py], with the properties the specification states
    about them.

    Numbers.  Python's [float] scores are modelled by exact rationals [Q]:
    every product, sum, comparison and [round(x, 2)] below is the exact one,
    so binary64 rounding is idealised away.  Equality of scores is therefore
    stated with [==] ([Qeq]) wherever two different fractions can denote the
    same number.  Where an exact value falls on a tie — two weighted scores
    that are equal, a product midway between two hundredths, a mean of
    several scores equal to a threshold — the answer of the running program
    depends on how the binary products and sums round; the statements about
    labels, stored hundredths and tiers leave the outcome open there.

    Dictionaries.  An emotion is the Python dict the classifiers return; its
    two keys are optional, because the source reads them both with
    [d['label']] (which raises [KeyError]) and with [d.get('label', ...)]. *)

From Stdlib Require Import ZArith QArith Qround Lqa Lia List String Ascii Bool.
From Stdlib Require Import Permutation Sorted.
Import ListNotations.

Local Open Scope string_scope.

(** ** Fragments of the Python runtime used by the code *)

Module Py.

(** Exceptions are values: the two kinds the modelled code can meet. *)
Inductive exn : Type :=
| KeyError (key : string)
| RuntimeError (what : string).

Inductive exc (A : Type) : Type :=
| Ok (a : A)
| Raise (e : exn).
Arguments Ok {A} a.
Arguments Raise {A} e.

Definition bind {A B : Type} (m : exc A) (k : A -> exc B) : exc B :=
  match m with
  | Ok a => k a
  | Raise e => Raise e
  end.

Definition succeeds {A : Type} (m : exc A) : bool :=
  match m with Ok _ => true | Raise _ => false end.

(** [a < b] on floats, as a boolean. *)
Definition Qltb (a b : Q) : bool := negb (Qle_bool b a).

(** [max(a, b)]: the first argument unless the second is strictly larger. *)
Definition max2 (a b : Q) : Q := if Qltb a b then b else a.

(** [str.lower()] on code points below 256. *)
Definition lower_ascii (c : ascii) : ascii :=
  let n := nat_of_ascii c in
  if ((65 <=? n) && (n <=? 90))%nat
     || ((192 <=? n) && (n <=? 222) && negb (n =? 215))%nat
  then ascii_of_nat (n + 32) else c.

Fixpoint lower (s : string) : string :=
  match s with
  | EmptyString => EmptyString
  | String c r => String (lower_ascii c) (lower r)
  end.

(** [str.isspace()] for one character, on code points below 256. *)
Definition is_space (c : ascii) : bool :=
  let n := nat_of_ascii c in
  (((9 <=? n) && (n <=? 13)) || ((28 <=? n) && (n <=? 32))
   || (n =? 133) || (n =? 160))%nat.

Fixpoint lstrip_chars (l : list ascii) : list ascii :=
  match l with
  | [] => []
  | c :: r => if is_space c then lstrip_chars r else l
  end.

(** [str.strip()]. *)
Definition strip (s : string) : string :=
  string_of_list_ascii
    (rev (lstrip_chars (rev (lstrip_chars (list_ascii_of_string s))))).

(** Truth value of a [str]. *)
Definition str_truthy (s : string) : bool :=
  match s with EmptyString => false | _ => true end.

(** [needle in hay] for strings. *)
Fixpoint contains (needle hay : string) : bool :=
  if String.prefix needle hay then true
  else match hay with
       | EmptyString => false
       | String _ r => contains needle r
       end.

(** [any(word in s for word in words)]. *)
Definition any_in (words : list string) (s : string) : bool :=
  existsb (fun w => contains w s) words.

(** Rounding to the nearest integer, ties to even. *)
Definition round_half_even (q : Q) : Z :=
  let f := Qfloor q in
  let r := (q - inject_Z f)%Q in
  if Qltb r (1 # 2) then f
  else if Qltb (1 # 2) r then (f + 1)%Z
  else if Z.even f then f else (f + 1)%Z.

(** [round(x, 2)]. *)
Definition round2 (q : Q) : Q :=
  (inject_Z (round_half_even (q * 100)) / 100)%Q.

(** [l[-n:]]: the last [n] elements, all of [l] when it is shorter. *)
Definition last_n {A : Type} (n : nat) (l : list A) : list A :=
  skipn (List.length l - n) l.

(** [random.choice(pool)], the drawn index being given by the caller. *)
Definition choice (draw : nat) (pool : list string) : string :=
  nth (draw mod List.length pool) pool "".

End Py.

Import Py.

Notation "x <- m ;; k" := (bind m (fun x => k))
  (at level 61, m at next level, right associativity).

(** ** emotion_model.py *)

Module EmotionModel.

Local Open Scope Q_scope.

(** The dict [{"label": ..., "score": ...}]; a key may be missing. *)
Record emotion : Type := mk_emotion {
  label : option string;
  score : option Q
}.

(** A well-formed EmotionEstimate: both keys present. *)
Definition estimate (l : string) (s : Q) : emotion :=
  {| label := Some l; score := Some s |}.

Definition unknown : emotion := estimate "unknown" 0.

(** [d['label']] and [d['score']]. *)
Definition item_label (d : emotion) : exc string :=
  match label d with Some l => Ok l | None => Raise (KeyError "label") end.

Definition item_score (d : emotion) : exc Q :=
  match score d with Some s => Ok s | None => Raise (KeyError "score") end.

(** [d.get('label', default)] and [d.get('score', default)]. *)
Definition get_label (d : emotion) (default : string) : string :=
  match label d with Some l => l | None => default end.

Definition get_score (d : emotion) (default : Q) : Q :=
  match score d with Some s => s | None => default end.

(** Truth value of an argument of [fuse_emotions]: [None] and the empty
    dict are false. *)
Definition truthy (d : option emotion) : bool :=
  match d with
  | None => false
  | Some {| label := None; score := None |} => false
  | Some _ => true
  end.

(** The body shared by the text+image and the audio+image branches, which
    differ in the names and the two weights only; [a] is the text (resp.
    audio) estimate, [b] the image estimate. *)
Definition fuse_pair (a_w b_w : Q) (a b : emotion) : exc emotion :=
  la <- item_label a ;;
  lb <- item_label b ;;
  if String.eqb la lb then
    l <- item_label a ;;
    sa <- item_score a ;;
    sb <- item_score b ;;
    Ok (estimate l (sa * a_w + sb * b_w))
  else
    sa <- item_score a ;;
    sb <- item_score b ;;
    l <- (if Qle_bool (sb * b_w) (sa * a_w) then item_label a
          else item_label b) ;;
    sa' <- item_score a ;;
    sb' <- item_score b ;;
    Ok (estimate l (max2 (sa' * a_w) (sb' * b_w))).

(** A dict from labels to numbers, in insertion order. *)
Definition scores_dict : Type := list (string * Q).

(** [d[k] = v]: overwrite in place when the key is there, append if not. *)
Fixpoint dict_set (k : string) (v : Q) (d : scores_dict) : scores_dict :=
  match d with
  | [] => [(k, v)]
  | (k', v') :: r =>
      if String.eqb k k' then (k', v) :: r else (k', v') :: dict_set k v r
  end.

(** [max(d, key=d.get)] started from the entry [best]: the first key, in
    insertion order, whose value is maximal. *)
Fixpoint max_key (d : scores_dict) (best : string * Q) : string * Q :=
  match d with
  | [] => best
  | (k, v) :: r =>
      if Qltb (snd best) v then max_key r (k, v) else max_key r best
  end.

Fixpoint dict_get (k : string) (d : scores_dict) : exc Q :=
  match d with
  | [] => Raise (KeyError k)
  | (k', v) :: r => if String.eqb k k' then Ok v else dict_get k r
  end.

(** The text+audio+image branch. *)
Definition fuse_three (t a i : emotion) : exc emotion :=
  let text_w := 0.5 in
  let audio_w := 0.3 in
  let image_w := 0.2 in
  lt <- item_label t ;; st <- item_score t ;;
  la <- item_label a ;; sa <- item_score a ;;
  li <- item_label i ;; si <- item_score i ;;
  let scores :=
    dict_set li (si * image_w)
      (dict_set la (sa * audio_w)
         (dict_set lt (st * text_w) [])) in
  match scores with
  | [] => Raise (RuntimeError "max() arg is an empty sequence")
  | first :: rest =>
      let fused_label := fst (max_key rest first) in
      s <- dict_get fused_label scores ;;
      Ok (estimate fused_label s)
  end.

(** The dict behind an argument that tested true. *)
Definition the (d : option emotion) : emotion :=
  match d with
  | Some e => e
  | None => {| label := None; score := None |}
  end.

Definition fuse_emotions
    (text_emotion audio_emotion image_emotion : option emotion)
    : exc emotion :=
  (* Text + Image *)
  if truthy text_emotion && truthy image_emotion
     && negb (truthy audio_emotion)
  then fuse_pair 0.7 0.3 (the text_emotion) (the image_emotion)
  (* Audio + Image *)
  else if truthy audio_emotion && truthy image_emotion
          && negb (truthy text_emotion)
  then fuse_pair 0.6 0.4 (the audio_emotion) (the image_emotion)
  (* Text + Audio + Image *)
  else if truthy text_emotion && truthy audio_emotion
          && truthy image_emotion
  then fuse_three (the text_emotion) (the audio_emotion)
         (the image_emotion)
  (* Only one input available *)
  else if truthy text_emotion then Ok (the text_emotion)
  else if truthy audio_emotion then Ok (the audio_emotion)
  else if truthy image_emotion then Ok (the image_emotion)
  else Ok unknown.

(** The model objects held by the detector.  A pipeline that was not loaded
    is [None]; a loaded one may raise.  [text_pipeline] and
    [image_pipeline] stand for the call followed by [[0]] (for the image,
    preceded by [Image.open]); [audio_pipeline] for the transcription
    followed by [["text"]]. *)
Record EmotionDetector : Type := {
  text_pipeline : option (string -> exc emotion);
  audio_pipeline : option (string -> exc string);
  image_pipeline : option (string -> exc emotion)
}.

Definition detect_from_text (self : EmotionDetector) (text : string)
    : emotion :=
  match text_pipeline self with
  | None => unknown
  | Some pipeline =>
      match pipeline text with
      | Ok result => result
      | Raise _ => unknown
      end
  end.

Definition detect_from_audio (self : EmotionDetector) (audio_path : string)
    : emotion :=
  match audio_pipeline self, text_pipeline self with
  | Some transcribe, Some pipeline =>
      match (text <- transcribe audio_path ;; pipeline text) with
      | Ok result => result
      | Raise _ => unknown
      end
  | _, _ => unknown
  end.

Definition detect_from_image (self : EmotionDetector) (image_path : string)
    : emotion :=
  match image_pipeline self with
  | None => unknown
  | Some pipeline =>
      match pipeline image_path with
      | Ok result => result
      | Raise _ => unknown
      end
  end.

Definition analyze_activity_image := detect_from_image.

Definition depression_indicators : list (string * Q) :=
  [ ("sadness", 0.8); ("fear", 0.6); ("anger", 0.4); ("disgust", 0.5);
    ("neutral", 0.2); ("joy", 0.0); ("surprise", 0.1) ].

(** [d.get(k, default)]. *)
Fixpoint get_or (k : string) (d : list (string * Q)) (default : Q) : Q :=
  match d with
  | [] => default
  | (k', v) :: r => if String.eqb k k' then v else get_or k r default
  end.

Definition _classify_depression_level (score : Q) : string :=
  if Qltb score 0.3 then "low"
  else if Qltb score 0.6 then "moderate"
  else "high".

(** The dict returned by [detect_depression]; the literal that
    [send_message] builds after a failure has no [emotional_state]. *)
Record analysis : Type := {
  emotional_state : option emotion;
  depression_score : Q;
  depression_level : string
}.

(** Truth value of an optional [str] argument. *)
Definition arg_truthy (a : option string) : bool :=
  match a with Some s => str_truthy s | None => false end.

Definition arg (a : option string) : string :=
  match a with Some s => s | None => "" end.

(** [path_exists] is [os.path.exists]. *)
Definition detect_depression (self : EmotionDetector)
    (path_exists : string -> bool)
    (text audio_path image_path : option string) : exc analysis :=
  let text_em :=
    if arg_truthy text then Some (detect_from_text self (arg text))
    else None in
  let audio_em :=
    if arg_truthy audio_path && path_exists (arg audio_path)
    then Some (detect_from_audio self (arg audio_path)) else None in
  let image_em :=
    if arg_truthy image_path && path_exists (arg image_path)
    then Some (detect_from_image self (arg image_path)) else None in
  fused_emotion <- fuse_emotions text_em audio_em image_em ;;
  let label := lower (get_label fused_emotion "unknown") in
  let depression_score :=
    get_or label depression_indicators 0.3
    * get_score fused_emotion 0.5 in
  Ok {| emotional_state := Some fused_emotion;
        depression_score := round2 depression_score;
        depression_level := _classify_depression_level depression_score |}.

End EmotionModel.

(** ** chat_service.py *)

Module ChatService.

Import EmotionModel.
Local Open Scope Q_scope.

(** An entry of the conversation history. *)
Record turn : Type := { role : string; content : string }.

(** The three documents one chat turn writes with [update_one]. *)
Record emotional_event : Type := {
  ev_timestamp : Z;
  ev_source : string;
  ev_text : string;
  ev_emotion : emotion;
  ev_depression_score : Q
}.

Record depression_record : Type := {
  dr_timestamp : Z;
  dr_score : Q;
  dr_level : string
}.

Record update : Type := {
  push_emotional_data : emotional_event;
  push_depression_scores : depression_record;
  set_last_activity : Z
}.

(** What [send_message] returns: the clarification and the connection
    replies carry [role] and [content] only. *)
Record reply : Type := {
  r_role : string;
  r_content : string;
  r_emotion : option emotion;
  r_depression : option analysis
}.

(** What a turn reads from outside: the three [datetime.utcnow()] values,
    in call order, and the index [random.choice] draws. *)
Record world : Type := {
  utcnow1 : Z;
  utcnow2 : Z;
  utcnow3 : Z;
  draw : nat
}.

Definition newlines : string :=
  String (ascii_of_nat 10) (String (ascii_of_nat 10) EmptyString).

Definition _get_sadness_response (draw : nat) : string :=
  let responses :=
    [ "I'm sorry to hear you're feeling down. Remember that emotions come and go, and difficult moments will pass. Would it help to talk about what's causing these feelings?";
      "It sounds like you're going through a tough time. Sometimes sharing your feelings can help lighten the emotional burden. What's been on your mind lately?";
      "I notice a sense of sadness in your message. It's okay to feel this way, and acknowledging your emotions is an important step. Would you like to explore some gentle activities that might help lift your mood?";
      "I hear that you're feeling sad. Many people experience these feelings, and it's a normal part of being human. Is there something specific that triggered these feelings?";
      "When we're feeling sad, it can sometimes feel like it will last forever, but emotions do shift and change. Would it help to talk about what might bring you some comfort right now?" ] in
  choice draw responses.

Definition _get_anger_response (draw : nat) : string :=
  let responses :=
    [ "I notice there's some frustration in your message. Taking a few deep breaths can sometimes help clear your mind. Would you like to talk more about what's bothering you?";
      "It seems like you're feeling frustrated. That's a natural emotion when facing challenges. What specifically is triggering these feelings right now?";
      "I can sense some anger in your words. Sometimes writing down exactly what's upsetting you can help process these emotions. Would you like to share more about the situation?";
      "It sounds like you're feeling angry, which is a completely valid emotion. Sometimes anger points us toward something important that needs our attention. What do you think your anger might be telling you?";
      "When we feel angry, our bodies often respond physically too. Taking a moment to notice these sensations can sometimes help. Would it help to talk about what triggered these feelings?" ] in
  choice draw responses.

Definition _get_fear_response (draw : nat) : string :=
  let responses :=
    [ "It sounds like you might be experiencing some anxiety. Remember that you're not alone, and many people go through similar feelings. Is there something specific that's causing concern right now?";
      "I notice some worry in your message. Sometimes anxiety is our mind's way of trying to protect us. Can you identify what specifically feels threatening or uncertain?";
      "Your message suggests you might be feeling anxious. Grounding exercises can sometimes help - try noticing 5 things you can see, 4 things you can touch, 3 things you can hear, 2 things you can smell, and 1 thing you can taste.";
      "Feeling anxious or worried is something many of us experience. Sometimes it helps to break down what feels overwhelming into smaller pieces. Would it help to talk about what's causing these feelings?";
      "I hear that you're feeling fearful or anxious. These emotions can be uncomfortable, but they're also normal responses to stress or uncertainty. Would it help to explore some calming techniques together?" ] in
  choice draw responses.

Definition _get_joy_response (draw : nat) : string :=
  let responses :=
    [ "It's wonderful to see you in good spirits! Positive moments like these are great opportunities to reflect on what brings you happiness and how to incorporate more of it into your daily life.";
      "I'm glad to hear you're feeling positive! What's contributed to your good mood today?";
      "It's great to see your upbeat message! Savoring positive emotions can help extend their benefits. Maybe take a moment to really appreciate what's going well right now?";
      "I'm happy to hear you're feeling good! These positive moments are worth celebrating. Is there something specific that brought you joy today?";
      "It's wonderful to hear the positivity in your message! Taking time to notice and appreciate good feelings can actually help strengthen them. What's bringing you happiness right now?" ] in
  choice draw responses.

Definition _get_fallback_response (draw : nat) (emotion : emotion)
    (depression : analysis) (user_message : string) : exc string :=
  let message_lower := lower user_message in
  if any_in ["hello"; "hi"; "hey"; "greetings"] message_lower then
    let greetings :=
      [ "Hello! It's so nice to connect with you today. How are you feeling?";
        "Hi there! I'm Chi Chi, your mental health companion. I'm here to chat and support you. How's your day going?";
        "Hey! Thanks for reaching out. I'm here to listen and support you. How are you doing today?";
        "Hello! I'm glad you're here. How are you feeling today? I'm here to listen and chat." ] in
    Ok (choice draw greetings)
  else if any_in ["thanks"; "thank you"; "appreciate"] message_lower then
    let gratitude_responses :=
      [ "You're very welcome. I'm glad I could help. Is there anything else on your mind you'd like to talk about?";
        "I'm happy I could be here for you. Remember, I'm always available when you need someone to talk to.";
        "It means a lot to hear that. I'm here to support you anytime you need. How else are you feeling today?";
        "You're welcome! Your wellbeing matters, and I'm glad to be part of your journey. Is there anything else you'd like to discuss?" ] in
    Ok (choice draw gratitude_responses)
  else if contains "who are you" message_lower
          || contains "what are you" message_lower then
    let bot_descriptions :=
      [ "I'm Chi Chi, your Mental Health Companion. I'm an AI designed to provide emotional support and help monitor your mental wellbeing. I'm here to listen, chat, and support you in a judgment-free space.";
        "I'm Chi Chi! Think of me as a supportive friend who's always here to listen. I'm designed to provide emotional support, help you track your mental wellbeing, and offer gentle guidance when needed.";
        "I'm your Mental Health Companion, Chi Chi. I'm here to provide a safe space for you to express your thoughts and feelings, offer support, and help you monitor your emotional wellbeing over time.";
        "Hello! I'm Chi Chi, an AI companion focused on mental health support. I'm designed to listen, respond with empathy, and help you track your emotional wellbeing. I'm here for you whenever you need someone to talk to." ] in
    Ok (choice draw bot_descriptions)
  else if any_in ["help"; "assist"; "support"] message_lower then
    let help_responses :=
      [ "I'm here to help. Feel free to share what's on your mind, and we can work through it together. Remember that while I'm designed to offer support, for serious concerns, it's important to reach out to a mental health professional.";
        "I'm listening and ready to support you. Would you like to talk about what's troubling you? Sometimes just expressing our thoughts can help us see things more clearly.";
        "You're not alone, and I'm here to support you. Feel free to share as much or as little as you're comfortable with. What kind of help are you looking for today?";
        "I'm here to provide support in any way I can. Would it help to talk through what you're experiencing? For serious concerns, I'd also encourage connecting with a mental health professional who can provide specialized care." ] in
    Ok (choice draw help_responses)
  else
    let by_emotion : exc string :=
      l <- item_label emotion ;;
      if String.eqb (lower l) "sadness" then Ok (_get_sadness_response draw)
      else
        l <- item_label emotion ;;
        if String.eqb (lower l) "anger" then Ok (_get_anger_response draw)
        else
          l <- item_label emotion ;;
          if String.eqb (lower l) "fear" then Ok (_get_fear_response draw)
          else
            l <- item_label emotion ;;
            if String.eqb (lower l) "joy" then Ok (_get_joy_response draw)
            else
              let general_responses :=
                [ "Thank you for sharing that with me. I'm here to listen and support you. Would you like to tell me more about what's on your mind?";
                "I appreciate you reaching out. Sometimes having someone to talk to can make a difference. How else have you been feeling lately?";
                "I'm here to support you. Feel free to share whatever you're comfortable with, and we can explore it together. What matters most to you right now?";
                "I'm listening and I care about what you're going through. Would you like to tell me more about your experience, or is there something specific you'd like to focus on today?" ] in
              Ok (choice draw general_responses) in
    if any_in ["i feel"; "feeling"; "felt"; "i am"; "i'm"] message_lower
    then
      if any_in ["sad"; "down"; "depressed"; "unhappy"; "miserable"]
           message_lower
      then Ok (_get_sadness_response draw)
      else if any_in ["angry"; "mad"; "frustrated"; "annoyed"; "irritated"]
                message_lower
      then Ok (_get_anger_response draw)
      else if any_in ["scared"; "afraid"; "anxious"; "nervous"; "worried"]
                message_lower
      then Ok (_get_fear_response draw)
      else if any_in ["happy"; "good"; "great"; "wonderful"; "fantastic"]
                message_lower
      then Ok (_get_joy_response draw)
      else by_emotion
    else by_emotion.

Definition _enhance_response_with_emotional_context (response : string)
    (emotion : emotion) (depression : analysis) : exc string :=
  let enhanced_response :=
    if String.eqb (depression_level depression) "high"
       && Qltb 0.7 (depression_score depression)
    then
      let resources := newlines ++ "If you're feeling overwhelmed, remember that help is available. Consider talking to a trusted friend, family member, or mental health professional. You don't have to face these feelings alone." in
      response ++ resources
    else if String.eqb (depression_level depression) "moderate"
            && Qltb 0.4 (depression_score depression)
    then
      let encouragement := newlines ++ "Remember that it's okay to have difficult days. Taking small steps to care for yourself can make a difference. Perhaps try a short walk outside or connect with someone you trust." in
      response ++ encouragement
    else response in
  l <- item_label emotion ;;
  let emotion_label := lower l in
  emotion_score <- item_score emotion ;;
  if String.eqb emotion_label "sadness" && Qltb 0.7 emotion_score then
    let suggestion := newlines ++ "When feelings of sadness are present, it can help to engage your senses. Maybe try listening to a favorite uplifting song, enjoying a warm drink, or stepping outside for some fresh air." in
    Ok (enhanced_response ++ suggestion)
  else if String.eqb emotion_label "fear" && Qltb 0.7 emotion_score then
    let grounding := newlines ++ "When anxiety or fear feels strong, grounding techniques can help. Try the 5-4-3-2-1 technique: notice 5 things you see, 4 things you can touch, 3 things you hear, 2 things you smell, and 1 thing you taste." in
    Ok (enhanced_response ++ grounding)
  else if String.eqb emotion_label "anger" && Qltb 0.7 emotion_score then
    let calming := newlines ++ "When strong emotions like frustration arise, taking a moment for some deep breaths can help create space between feelings and reactions. Breathing in for 4 counts and out for 6 can be especially calming." in
    Ok (enhanced_response ++ calming)
  else if String.eqb emotion_label "joy" && Qltb 0.7 emotion_score then
    let reinforcement := newlines ++ "It's wonderful to experience these positive feelings. Taking a moment to savor and appreciate them can help extend their benefits." in
    Ok (enhanced_response ++ reinforcement)
  else Ok enhanced_response.

(** The session object.  The capture thread, the camera and the capture
    interval are not touched by a chat turn and are left out. *)
Record ChatService (Db : Type) : Type := {
  db : option Db;
  user_id : option string;
  ollama_model : string;
  conversation_history : list turn
}.
Arguments db {Db} _.
Arguments user_id {Db} _.
Arguments ollama_model {Db} _.
Arguments conversation_history {Db} _.

Section Turn.

(** The user store and its one write operation: [update_one d uid u] is
    [d.users.update_one({'_id': ObjectId(uid)}, {'$push': ..., '$set':
    ...})], together with the import of [ObjectId]; it may raise. *)
Variable Db : Type.
Variable update_one : Db -> string -> update -> exc Db.

(** The module-level [emotion_detector] and [os.path.exists]. *)
Variable emotion_detector : EmotionDetector.
Variable path_exists : string -> bool.

(** The [ollama] module, [None] when its import failed; the function is
    [ollama.chat(model=..., messages=...)] followed by
    [['message']['content']], and may raise. *)
Variable ollama : option (string -> list turn -> exc string).

(** The system prompt, an f-string of the emotion label and score and of
    the depression level and score. *)
Variable system_message : string -> Q -> string -> Q -> string.

Definition append_history (self : ChatService Db) (t : turn)
    : ChatService Db :=
  {| db := db self;
     user_id := user_id self;
     ollama_model := ollama_model self;
     conversation_history := conversation_history self ++ [t] |}.

Definition with_db (self : ChatService Db) (d : Db) : ChatService Db :=
  {| db := Some d;
     user_id := user_id self;
     ollama_model := ollama_model self;
     conversation_history := conversation_history self |}.

Definition clarification : reply :=
  {| r_role := "assistant";
     r_content := "I didn't catch that. Could you please say something?";
     r_emotion := None;
     r_depression := None |}.

Definition fallback_message : turn :=
  {| role := "assistant";
     content :=
       "I'm having trouble connecting right now. Could you try again?" |}.

Definition unknown_analysis : analysis :=
  {| emotional_state := None;
     depression_score := 0.0;
     depression_level := "unknown" |}.

(** The update document of a chat turn. *)
Definition chat_update (w : world) (message : string)
    (emotion_result : emotion) (depression_analysis : analysis) : update :=
  {| push_emotional_data :=
       {| ev_timestamp := utcnow1 w;
          ev_source := "chat";
          ev_text := message;
          ev_emotion := emotion_result;
          ev_depression_score := depression_score depression_analysis |};
     push_depression_scores :=
       {| dr_timestamp := utcnow2 w;
          dr_score := depression_score depression_analysis;
          dr_level := depression_level depression_analysis |};
     set_last_activity := utcnow3 w |}.

(** The body of the first [try]: classify, score, store. *)
Definition analyze (w : world) (self : ChatService Db) (message : string)
    : exc (emotion * analysis * ChatService Db) :=
  let emotion_result := detect_from_text emotion_detector message in
  depression_analysis <-
    detect_depression emotion_detector path_exists (Some message)
      None None ;;
  match db self with
  | Some d =>
      if arg_truthy (user_id self) then
        d' <- update_one d (arg (user_id self))
                (chat_update w message emotion_result
                   depression_analysis) ;;
        Ok (emotion_result, depression_analysis, with_db self d')
      else Ok (emotion_result, depression_analysis, self)
  | None => Ok (emotion_result, depression_analysis, self)
  end.

(** The first [try] with its handler. *)
Definition analysis_step (w : world) (self : ChatService Db)
    (message : string) : emotion * analysis * ChatService Db :=
  match analyze w self message with
  | Ok r => r
  | Raise _ => (unknown, unknown_analysis, self)
  end.

(** The body of the second [try], up to the reply text: the state comes
    back with whatever was appended before an exception. *)
Definition respond (w : world) (self : ChatService Db) (message : string)
    (emotion_result : emotion) (depression_analysis : analysis)
    : ChatService Db * exc reply :=
  match (l <- item_label emotion_result ;;
         s <- item_score emotion_result ;;
         Ok (system_message l s (depression_level depression_analysis)
               (depression_score depression_analysis))) with
  | Raise e => (self, Raise e)
  | Ok prompt =>
      let formatted_history :=
        {| role := "system"; content := prompt |}
        :: map (fun msg => {| role := role msg; content := content msg |})
             (last_n 5 (conversation_history self)) in
      let generated :=
        match ollama with
        | Some chat =>
            match chat (ollama_model self) formatted_history with
            | Ok text => Ok text
            | Raise _ =>
                _get_fallback_response (draw w) emotion_result
                  depression_analysis message
            end
        | None =>
            _get_fallback_response (draw w) emotion_result
              depression_analysis message
        end in
      match generated with
      | Raise e => (self, Raise e)
      | Ok assistant_message_content =>
          let self' :=
            append_history self
              {| role := "assistant";
                 content := assistant_message_content |} in
          match _enhance_response_with_emotional_context
                  assistant_message_content emotion_result
                  depression_analysis with
          | Raise e => (self', Raise e)
          | Ok enhanced_response =>
              (self',
               Ok {| r_role := "assistant";
                     r_content := enhanced_response;
                     r_emotion := Some emotion_result;
                     r_depression := Some depression_analysis |})
          end
      end
  end.

(** [not message or not message.strip()]; [None] is a missing message. *)
Definition blank (message : option string) : bool :=
  negb (arg_truthy message) || negb (str_truthy (strip (arg message))).

Definition send_message (w : world) (self : ChatService Db)
    (message : option string) : ChatService Db * reply :=
  if blank message then (self, clarification)
  else
    let user_message := {| role := "user"; content := arg message |} in
    let self1 := append_history self user_message in
    let '(emotion_result, depression_analysis, self2) :=
      analysis_step w self1 (arg message) in
    match respond w self2 (arg message) emotion_result
            depression_analysis with
    | (self3, Ok r) => (self3, r)
    | (self3, Raise _) =>
        (append_history self3 fallback_message,
         {| r_role := role fallback_message;
            r_content := content fallback_message;
            r_emotion := None;
            r_depression := None |})
    end.

End Turn.

Arguments append_history {Db} self t.
Arguments with_db {Db} self d.
Arguments analyze {Db} update_one emotion_detector path_exists w self message.
Arguments analysis_step {Db} update_one emotion_detector path_exists w self
  message.
Arguments respond {Db} ollama system_message w self message emotion_result
  depression_analysis.
Arguments send_message {Db} update_one emotion_detector path_exists ollama
  system_message w self message.

(** An in-memory user store for examples: the two arrays of the user's
    document and its [last_activity]. *)
Record MemDb : Type := {
  emotional_data : list emotional_event;
  depression_scores : list depression_record;
  last_activity : option Z
}.

Definition empty_db : MemDb :=
  {| emotional_data := []; depression_scores := []; last_activity := None |}.

(** A store that applies the update. *)
Definition mem_update_one (d : MemDb) (uid : string) (u : update)
    : exc MemDb :=
  Ok {| emotional_data := emotional_data d ++ [push_emotional_data u];
        depression_scores :=
          depression_scores d ++ [push_depression_scores u];
        last_activity := Some (set_last_activity u) |}.

(** A store that cannot be reached. *)
Definition down_update_one (d : MemDb) (uid : string) (u : update)
    : exc MemDb :=
  Raise (RuntimeError "ServerSelectionTimeoutError").

End ChatService.

(** ** app.py: the risk badge of the dashboard and the report summary *)

Module App.

Import EmotionModel ChatService.
Local Open Scope Q_scope.

(** [sum(xs)] for numbers. *)
Definition sum (xs : list Q) : Q := fold_left Qplus xs 0.

Definition len {A : Type} (l : list A) : Q :=
  inject_Z (Z.of_nat (List.length l)).

(** [l.sort(key=lambda x: x['timestamp'])]: ascending and stable. *)
Fixpoint insert_by_timestamp (x : depression_record)
    (sorted : list depression_record) : list depression_record :=
  match sorted with
  | [] => [x]
  | y :: r =>
      if (dr_timestamp x <=? dr_timestamp y)%Z then x :: y :: r
      else y :: insert_by_timestamp x r
  end.

Definition sort_by_timestamp (l : list depression_record)
    : list depression_record :=
  fold_right insert_by_timestamp [] l.

(** The scores the badge averages: [depression_scores[-5:]] of the sorted
    list when it has at least 5 entries, the whole list otherwise. *)
Definition recent_scores (depression_scores : list depression_record)
    : list depression_record :=
  let depression_scores := sort_by_timestamp depression_scores in
  if (5 <=? List.length depression_scores)%nat
  then last_n 5 depression_scores else depression_scores.

Definition avg_score (depression_scores : list depression_record) : Q :=
  match sort_by_timestamp depression_scores with
  | [] => 0
  | _ =>
      sum (map dr_score (recent_scores depression_scores))
      / len (recent_scores depression_scores)
  end.

(** The thresholds of [dashboard]. *)
Definition risk_of (avg_score : Q) : string :=
  if Qltb 0.6 avg_score then "High"
  else if Qltb 0.3 avg_score then "Moderate"
  else "Low".

(** [dashboard]: the risk label and the displayed score. *)
Definition dashboard (depression_scores : list depression_record)
    : string * Q :=
  let avg := avg_score depression_scores in
  (risk_of avg, round2 avg).

(** An entry of [emotional_data] as the report reads it: with
    [.get('timestamp', datetime.min)] and ['depression_score' in entry]. *)
Record entry : Type := {
  timestamp : option Z;
  entry_depression_score : option Q
}.

(** [a <= b] on timestamps, [datetime.min] (a missing one) being least. *)
Definition ts_leb (a b : option Z) : bool :=
  match a, b with
  | None, _ => true
  | Some _, None => false
  | Some x, Some y => (x <=? y)%Z
  end.

(** [l.sort(key=..., reverse=True)]: descending and stable. *)
Fixpoint insert_desc (x : entry) (sorted : list entry) : list entry :=
  match sorted with
  | [] => [x]
  | y :: r =>
      if ts_leb (timestamp y) (timestamp x) then x :: y :: r
      else y :: insert_desc x r
  end.

Definition sort_desc (l : list entry) : list entry :=
  fold_right insert_desc [] l.

Definition report_scores (emotional_data : list entry) : list Q :=
  let recent_data := firstn 20 (sort_desc emotional_data) in
  flat_map (fun e => match entry_depression_score e with
                     | Some s => [s] | None => [] end) recent_data.

Definition avg_depression_score (emotional_data : list entry) : Q :=
  match report_scores emotional_data with
  | [] => 0
  | depression_scores => sum depression_scores / len depression_scores
  end.

Definition summary_high : string :=
  "Based on your conversation patterns, there are indicators of significant depressive symptoms. The analysis shows persistent negative emotional expressions and language patterns associated with depression.".

Definition summary_moderate : string :=
  "Your conversation patterns show some indicators of mild to moderate depressive symptoms. While there are some positive emotions present, there are also notable periods of negative emotional expression.".

Definition summary_low : string :=
  "Based on your conversation patterns, your depression risk appears to be low. The analysis shows generally balanced emotional responses with predominantly positive or neutral expressions.".

(** The summary text of [generate_depression_report]. *)
Definition summary_of (avg_depression_score : Q) : string :=
  if Qltb 0.6 avg_depression_score then summary_high
  else if Qltb 0.3 avg_depression_score then summary_moderate
  else summary_low.

Definition report_summary (emotional_data : list entry) : string :=
  summary_of (avg_depression_score emotional_data).

End App.

(** ** chat_service.py, continued: session start and the shared instance *)

Module ChatSession.

Import EmotionModel ChatService.

(** [__init__]. *)
Definition new_service {Db : Type} (db : option Db) (user_id : option string)
    : ChatService Db :=
  {| db := db;
     user_id := user_id;
     ollama_model := "llama3.2";
     conversation_history := [] |}.

Definition welcome_messages : list string :=
  [ "Hi there! I'm Chi Chi, your mental health companion. I'm here to chat, listen, and support you. How are you feeling today?";
    "Hello! I'm Chi Chi, and I'm here to provide a safe space for you to share your thoughts and feelings. How's your day going so far?";
    "Welcome! I'm Chi Chi, your friendly mental health companion. I'm all ears if you'd like to talk about anything that's on your mind today.";
    "Hi! I'm Chi Chi. Think of me as a supportive friend who's here to listen without judgment. What's on your mind today?" ].

(** [start_chat]: the history is reset to the welcome message.  The start of
    the background capture, which only touches the capture fields left out
    of [ChatService], is not modelled. *)
Definition start_chat {Db : Type} (w : world) (self : ChatService Db)
    (chat_type : string) : ChatService Db * turn :=
  let welcome_message :=
    {| role := "assistant"; content := choice (draw w) welcome_messages |} in
  ({| db := db self;
      user_id := user_id self;
      ollama_model := ollama_model self;
      conversation_history := [] ++ [welcome_message] |},
   welcome_message).

(** [get_chat_service]: [chat_service] is the module-level instance, [None]
    before the first call; the new value of the global comes back with the
    instance. *)
Definition get_chat_service {Db : Type}
    (chat_service : option (ChatService Db))
    (db : option Db) (user_id : option string)
    : option (ChatService Db) * ChatService Db :=
  match chat_service with
  | None =>
      let created := new_service db user_id in
      (Some created, created)
  | Some existing =>
      let updated :=
        {| db := db;
           user_id := user_id;
           ollama_model := ollama_model existing;
           conversation_history := conversation_history existing |} in
      (Some updated, updated)
  end.

End ChatSession.

(** ** app.py, continued: upload filter, trend and report *)

Module AppReport.

Import EmotionModel ChatService App.
Local Open Scope Q_scope.

(** [filename.rsplit('.', 1)]: the text before and after the last dot,
    [None] when there is no dot (the split then has one element). *)
Fixpoint rsplit_dot (s : string) : option (string * string) :=
  match s with
  | EmptyString => None
  | String c r =>
      match rsplit_dot r with
      | Some (before, after) => Some (String c before, after)
      | None => if Ascii.eqb c "." then Some (EmptyString, r) else None
      end
  end.

Definition rsplit1 (s : string) : list string :=
  match rsplit_dot s with
  | Some (before, after) => [before; after]
  | None => [s]
  end.

Definition ALLOWED_EXTENSIONS : list string := ["png"; "jpg"; "jpeg"].

Definition allowed_file (filename : string) : bool :=
  contains "." filename
  && existsb (String.eqb (lower (nth 1 (rsplit1 filename) "")))
       ALLOWED_EXTENSIONS.

(** [l.sort(key=...)], a stable sort, as insertion from the right: [x] goes
    before the first [y] with [before x y].  With [before x y] as
    [key x <= key y] this is the ascending sort, with [key y <= key x] the
    sort with [reverse=True]. *)
Fixpoint insert_sorted {A : Type} (before : A -> A -> bool) (x : A)
    (sorted : list A) : list A :=
  match sorted with
  | [] => [x]
  | y :: r =>
      if before x y then x :: y :: r else y :: insert_sorted before x r
  end.

Definition stable_sort {A : Type} (before : A -> A -> bool) (l : list A)
    : list A :=
  fold_right (insert_sorted before) [] l.

(** A point of the trend chart; [date] is the timestamp rendered by
    [strftime('%Y-%m-%d')]. *)
Record chart_point : Type := {
  date : string;
  point_score : Q;
  point_level : string
}.

(** The records [get_depression_trend] shows: newest first, at most 30. *)
Definition trend_records (depression_scores : list depression_record)
    : list depression_record :=
  firstn 30
    (stable_sort (fun x y => (dr_timestamp y <=? dr_timestamp x)%Z)
       depression_scores).

Definition get_depression_trend (strftime : Z -> string)
    (depression_scores : list depression_record) : list chart_point :=
  map (fun score =>
         {| date := strftime (dr_timestamp score);
            point_score := dr_score score;
            point_level := dr_level score |})
    (trend_records depression_scores).

(** An entry of [emotional_data] as [generate_depression_report] reads it:
    every key may be missing. *)
Record event_doc : Type := {
  doc_timestamp : option Z;
  doc_emotion : option emotion;
  doc_depression_score : option Q
}.

Definition recent_data (emotional_data : list event_doc) : list event_doc :=
  firstn 20
    (stable_sort (fun x y => ts_leb (doc_timestamp y) (doc_timestamp x))
       emotional_data).

(** [emotions_count]: label to (count, total_score), in insertion order. *)
Definition count_dict : Type := list (string * (nat * Q)).

Fixpoint count_add (emotion_label : string) (emotion_score : Q)
    (d : count_dict) : count_dict :=
  match d with
  | [] => [(emotion_label, (1%nat, emotion_score))]
  | (k, (count, total_score)) :: r =>
      if String.eqb emotion_label k
      then (k, (S count, total_score + emotion_score)) :: r
      else (k, (count, total_score)) :: count_add emotion_label emotion_score r
  end.

Definition emotions_count (recent : list event_doc) : count_dict :=
  fold_left
    (fun d entry =>
       match doc_emotion entry with
       | Some e => count_add (lower (get_label e "neutral")) (get_score e 0) d
       | None => d
       end)
    recent [].

(** [str.capitalize()] on code points below 256: the first character in
    upper case, the rest in lower case.  (The three characters whose upper
    case lies beyond 255 are left as they are.) *)
Definition upper_ascii (c : ascii) : ascii :=
  let n := nat_of_ascii c in
  if ((97 <=? n) && (n <=? 122))%nat
     || ((224 <=? n) && (n <=? 254) && negb (n =? 247))%nat
  then ascii_of_nat (n - 32) else c.

Definition capitalize (s : string) : string :=
  match s with
  | EmptyString => EmptyString
  | String c r => String (upper_ascii c) (lower r)
  end.

(** A row of the per-emotion breakdown. *)
Record emotion_row : Type := {
  row_label : string;
  row_score : Q;
  row_count : nat
}.

Definition emotions (recent : list event_doc) : list emotion_row :=
  stable_sort (fun x y => Qle_bool (row_score y) (row_score x))
    (map (fun kv =>
            let '(label, (count, total_score)) := kv in
            {| row_label := capitalize label;
               row_score := total_score / inject_Z (Z.of_nat count);
               row_count := count |})
       (emotions_count recent)).

Definition emotion_analysis (emotions : list emotion_row) : string :=
  match emotions with
  | [] => "There isn't enough emotional data to provide a detailed analysis."
  | top :: rest =>
      let dominant_emotion := lower (row_label top) in
      if String.eqb dominant_emotion "joy" then
        "Your conversations show predominantly positive emotions, with joy being the most frequent. This suggests a generally positive outlook."
      else if existsb (String.eqb dominant_emotion)
                ["sadness"; "fear"; "anger"] then
        "Your conversations show a significant presence of "
        ++ dominant_emotion
        ++ ", which can be associated with depressive states when persistent. There are also signs of "
        ++ match rest with
           | second :: _ => lower (row_label second)
           | [] => "other emotions"
           end
        ++ "."
      else
        "Your conversations show a mix of emotions, with "
        ++ dominant_emotion
        ++ " being most prominent. The emotional variety suggests normal emotional fluctuations."
  end.

Record recommendation : Type := {
  title : string;
  text : string;
  icon : string
}.

Definition recommendations (avg_depression_score : Q)
    : list recommendation :=
  [ {| title := "Practice Mindfulness";
       text := "Take 5-10 minutes each day for mindful breathing or meditation to center yourself and reduce stress.";
       icon := "fa-leaf" |} ]
  ++ (if Qltb 0.6 avg_depression_score then
        [ {| title := "Seek Professional Support";
             text := "Consider reaching out to a mental health professional to discuss your feelings and explore treatment options.";
             icon := "fa-user-md" |};
          {| title := "Establish Daily Routine";
             text := "Create and maintain a structured daily routine, including regular sleep times, meals, and activities.";
             icon := "fa-calendar" |} ]
      else if Qltb 0.3 avg_depression_score then
        [ {| title := "Physical Activity";
             text := "Aim for 30 minutes of moderate exercise at least 3 times a week to boost mood and energy levels.";
             icon := "fa-walking" |};
          {| title := "Social Connection";
             text := "Schedule time to connect with supportive friends or family members, even if briefly.";
             icon := "fa-users" |} ]
      else
        [ {| title := "Maintain Healthy Habits";
             text := "Continue with activities that bring you joy and maintain your well-being.";
             icon := "fa-heart" |};
          {| title := "Preventive Self-Care";
             text := "Practice regular self-care activities to maintain your emotional resilience.";
             icon := "fa-spa" |} ]).

(** The report object, without its [generated_at] time stamp. *)
Record report : Type := {
  report_depression_score : Q;
  report_emotions : list emotion_row;
  report_summary_text : string;
  report_emotion_analysis : string;
  report_recommendations : list recommendation
}.

(** [generate_depression_report] up to the report object; saving it and
    wrapping it in the response follow. *)
Definition build_report (emotional_data : list event_doc) : report :=
  let recent_data := recent_data emotional_data in
  let depression_scores :=
    flat_map (fun entry => match doc_depression_score entry with
                           | Some s => [s] | None => [] end) recent_data in
  let avg_depression_score :=
    match depression_scores with
    | [] => 0
    | _ => sum depression_scores / len depression_scores
    end in
  {| report_depression_score := avg_depression_score;
     report_emotions := emotions recent_data;
     report_summary_text := summary_of avg_depression_score;
     report_emotion_analysis := emotion_analysis (emotions recent_data);
     report_recommendations := recommendations avg_depression_score |}.

End AppReport.

(** ** app.py, continued: the chat route *)

Module AppRoutes.

Import EmotionModel ChatService ChatSession.

(** The JSON answer of a route with its status code. *)
Record route_result : Type := {
  status : nat;
  success : bool;
  error : option string;
  response : option reply
}.

(** [chat_message]: [session_user_id] is [session['user_id']] when the key
    is there, [data_message] is [data.get('message')] when the key is there,
    [chat_service] the shared instance of chat_service.py; the route hands
    its store [db] and the session's user id to [get_chat_service]. *)
Definition chat_message {Db : Type}
    (update_one : Db -> string -> update -> exc Db)
    (emotion_detector : EmotionDetector) (path_exists : string -> bool)
    (ollama : option (string -> list turn -> exc string))
    (system_message : string -> Q -> string -> Q -> string)
    (w : world) (chat_service : option (ChatService Db)) (db : Db)
    (session_user_id : option string) (data_message : option string)
    : option (ChatService Db) * route_result :=
  match session_user_id with
  | None =>
      (chat_service,
       {| status := 401; success := false;
          error := Some "Not authenticated"; response := None |})
  | Some user_id =>
      let message :=
        match data_message with Some m => m | None => "" end in
      if negb (str_truthy message) then
        (chat_service,
         {| status := 400; success := false;
            error := Some "No message provided"; response := None |})
      else
        let '(_, service) :=
          get_chat_service chat_service (Some db) (Some user_id) in
        let '(service', reply) :=
          send_message update_one emotion_detector path_exists ollama
            system_message w service (Some message) in
        (Some service',
         {| status := 200; success := true;
            error := None; response := Some reply |})
  end.

End AppRoutes.

(** * Definitions used to state the properties *)

Import EmotionModel ChatService ChatSession App AppReport AppRoutes.

Local Open Scope Q_scope.

(** The outcome of a two-input fusion of differing labels: one of the two
    labels with its weighted score, which is the larger of the two weighted
    scores (so the label is decided whenever the two weighted scores differ;
    where they are equal the label is left open, since the comparison is
    made on the rounded products).  The fused score lies strictly below the
    sum of the two weighted scores when both scores are positive, and
    strictly below the raw score of the returned label when that score is
    positive. *)
Definition weighted_max (wa wb : Q) (la lb : string) (a b : Q)
    (r : exc emotion) : Prop :=
  exists l s,
    r = Ok (estimate l s)
    /\ ((l = la /\ s == a * wa /\ b * wb <= a * wa)
        \/ (l = lb /\ s == b * wb /\ a * wa <= b * wb))
    /\ (0 < a -> 0 < b -> s < a * wa + b * wb)
    /\ (l = la -> 0 < a -> s < a)
    /\ (l = lb -> 0 < b -> s < b).

(** C4 as the specification words it: the fused score of two estimates with
    different labels is never the sum of the two weighted scores and never
    one of the two raw scores. *)
Definition never_sum_nor_raw (wa wb a b : Q) (r : exc emotion) : Prop :=
  exists l s,
    r = Ok (estimate l s)
    /\ ~ s == a * wa + b * wb /\ ~ s == a /\ ~ s == b.

(** The indicator weights as the specification lists them. *)
Definition indicator_weight (label : string) : Q :=
  if String.eqb label "sadness" then 0.8
  else if String.eqb label "fear" then 0.6
  else if String.eqb label "disgust" then 0.5
  else if String.eqb label "anger" then 0.4
  else if String.eqb label "neutral" then 0.2
  else if String.eqb label "surprise" then 0.1
  else if String.eqb label "joy" then 0.0
  else 0.3.

(** The estimates [detect_depression] hands to the fusion: the classifier's
    answer for each modality that is given — for audio and image, whose
    path also exists — and nothing for the others. *)
Definition text_estimate (self : EmotionDetector) (text : option string)
    : option emotion :=
  if arg_truthy text then Some (detect_from_text self (arg text)) else None.

Definition audio_estimate (self : EmotionDetector)
    (path_exists : string -> bool) (audio_path : option string)
    : option emotion :=
  if arg_truthy audio_path && path_exists (arg audio_path)
  then Some (detect_from_audio self (arg audio_path)) else None.

Definition image_estimate (self : EmotionDetector)
    (path_exists : string -> bool) (image_path : option string)
    : option emotion :=
  if arg_truthy image_path && path_exists (arg image_path)
  then Some (detect_from_image self (arg image_path)) else None.

(** [x] is [q] rounded to two decimal places: a whole number of hundredths,
    and no other hundredth is nearer to [q].  Where [q] lies midway between
    two hundredths both qualify. *)
Definition nearest_hundredth (q x : Q) : Prop :=
  exists n : Z,
    x == inject_Z n / 100
    /\ - (1 # 2) <= inject_Z n - q * 100 <= 1 # 2.

(** A detector whose text model answers with a fixed estimate. *)
Definition constant_detector (e : emotion) : EmotionDetector :=
  {| text_pipeline := Some (fun _ => Ok e);
     audio_pipeline := None;
     image_pipeline := None |}.

Definition sadness_analysis : analysis :=
  {| emotional_state := Some (estimate "sadness" 0.9);
     depression_score := 0.72;
     depression_level := "high" |}.

(** An estimate with both keys, and classifiers that only return such. *)
Definition well_formed (e : emotion) : Prop :=
  exists l s, e = estimate l s.

Definition well_formed_input (d : option emotion) : Prop :=
  match d with
  | None => True
  | Some e => well_formed e
  end.

Definition well_formed_pipeline (p : option (string -> exc emotion)) : Prop :=
  forall f x e, p = Some f -> f x = Ok e -> well_formed e.

Definition well_formed_detector (self : EmotionDetector) : Prop :=
  well_formed_pipeline (text_pipeline self)
  /\ well_formed_pipeline (image_pipeline self).

Definition unit_estimate (e : emotion) : Prop :=
  exists l s, e = estimate l s /\ 0 <= s <= 1.

Definition unit_input (d : option emotion) : Prop :=
  match d with
  | None => True
  | Some e => unit_estimate e
  end.

(** Every estimate a loaded classifier returns is well formed with a score
    in [0,1]. *)
Definition unit_pipeline (p : option (string -> exc emotion)) : Prop :=
  forall f x e, p = Some f -> f x = Ok e -> unit_estimate e.

Definition unit_detector (self : EmotionDetector) : Prop :=
  unit_pipeline (text_pipeline self) /\ unit_pipeline (image_pipeline self).

Definition values_in (lo hi : Q) (d : scores_dict) : Prop :=
  Forall (fun kv => lo <= snd kv <= hi) d.

(** An absent, empty or whitespace-only message. *)
Definition whitespace_only (message : option string) : bool :=
  match message with
  | None => true
  | Some s => forallb is_space (list_ascii_of_string s)
  end.


Definition session0 : ChatService MemDb :=
  {| db := Some empty_db;
     user_id := Some "64e5f0c2a1b2c3d4e5f60718";
     ollama_model := "llama3.2";
     conversation_history := [] |}.

Definition world0 : world :=
  {| utcnow1 := 1000; utcnow2 := 1001; utcnow3 := 1002; draw := 0 |}.

(** A stand-in for the rendered system prompt. *)
Definition short_prompt (l : string) (s : Q) (level : string) (ds : Q)
    : string :=
  "You are a compassionate mental health companion named Chi Chi".

(** A classifier answer without a label: the analysis goes through (the
    scoring reads it with [get]), the prompt of the reply block does not. *)
Definition unlabelled : emotion := {| label := None; score := Some 0.9 |}.






(** A record whose score is the lower threshold, and an event whose score is
    the upper one. *)
Definition boundary_record : depression_record :=
  {| dr_timestamp := 1000; dr_score := 0.3; dr_level := "moderate" |}.

Definition boundary_entry : entry :=
  {| timestamp := Some 1000%Z; entry_depression_score := Some 0.6 |}.

(** The summary template that goes with a level. *)
Definition summary_for_level (level : string) : string :=
  if String.eqb level "high" then summary_high
  else if String.eqb level "moderate" then summary_moderate
  else summary_low.

Definition older_first (a b : depression_record) : Prop :=
  (dr_timestamp a <= dr_timestamp b)%Z.

(** The dict [{}]. *)
Definition empty_dict : emotion := {| label := None; score := None |}.

(** The depression score of an analysis that returned, 0 for one that
    raised. *)
Definition score_of (r : exc analysis) : Q :=
  match r with
  | Ok a => depression_score a
  | Raise _ => 0
  end.

(** The greetings of the rule-based responder. *)
Definition greetings_pool : list string :=
  [ "Hello! It's so nice to connect with you today. How are you feeling?";
    "Hi there! I'm Chi Chi, your mental health companion. I'm here to chat and support you. How's your day going?";
    "Hey! Thanks for reaching out. I'm here to listen and support you. How are you doing today?";
    "Hello! I'm glad you're here. How are you feeling today? I'm here to listen and chat." ].

(** Every text the rule-based responder can give. *)
Definition canned_replies : list string :=
  (greetings_pool
   ++ [ "You're very welcome. I'm glad I could help. Is there anything else on your mind you'd like to talk about?";
       "I'm happy I could be here for you. Remember, I'm always available when you need someone to talk to.";
       "It means a lot to hear that. I'm here to support you anytime you need. How else are you feeling today?";
       "You're welcome! Your wellbeing matters, and I'm glad to be part of your journey. Is there anything else you'd like to discuss?" ]
   ++ [ "I'm Chi Chi, your Mental Health Companion. I'm an AI designed to provide emotional support and help monitor your mental wellbeing. I'm here to listen, chat, and support you in a judgment-free space.";
       "I'm Chi Chi! Think of me as a supportive friend who's always here to listen. I'm designed to provide emotional support, help you track your mental wellbeing, and offer gentle guidance when needed.";
       "I'm your Mental Health Companion, Chi Chi. I'm here to provide a safe space for you to express your thoughts and feelings, offer support, and help you monitor your emotional wellbeing over time.";
       "Hello! I'm Chi Chi, an AI companion focused on mental health support. I'm designed to listen, respond with empathy, and help you track your emotional wellbeing. I'm here for you whenever you need someone to talk to." ]
   ++ [ "I'm here to help. Feel free to share what's on your mind, and we can work through it together. Remember that while I'm designed to offer support, for serious concerns, it's important to reach out to a mental health professional.";
       "I'm listening and ready to support you. Would you like to talk about what's troubling you? Sometimes just expressing our thoughts can help us see things more clearly.";
       "You're not alone, and I'm here to support you. Feel free to share as much or as little as you're comfortable with. What kind of help are you looking for today?";
       "I'm here to provide support in any way I can. Would it help to talk through what you're experiencing? For serious concerns, I'd also encourage connecting with a mental health professional who can provide specialized care." ]
   ++ [ "Thank you for sharing that with me. I'm here to listen and support you. Would you like to tell me more about what's on your mind?";
       "I appreciate you reaching out. Sometimes having someone to talk to can make a difference. How else have you been feeling lately?";
       "I'm here to support you. Feel free to share whatever you're comfortable with, and we can explore it together. What matters most to you right now?";
       "I'm listening and I care about what you're going through. Would you like to tell me more about your experience, or is there something specific you'd like to focus on today?" ]
   ++ [ "I'm sorry to hear you're feeling down. Remember that emotions come and go, and difficult moments will pass. Would it help to talk about what's causing these feelings?";
       "It sounds like you're going through a tough time. Sometimes sharing your feelings can help lighten the emotional burden. What's been on your mind lately?";
       "I notice a sense of sadness in your message. It's okay to feel this way, and acknowledging your emotions is an important step. Would you like to explore some gentle activities that might help lift your mood?";
       "I hear that you're feeling sad. Many people experience these feelings, and it's a normal part of being human. Is there something specific that triggered these feelings?";
       "When we're feeling sad, it can sometimes feel like it will last forever, but emotions do shift and change. Would it help to talk about what might bring you some comfort right now?" ]
   ++ [ "I notice there's some frustration in your message. Taking a few deep breaths can sometimes help clear your mind. Would you like to talk more about what's bothering you?";
       "It seems like you're feeling frustrated. That's a natural emotion when facing challenges. What specifically is triggering these feelings right now?";
       "I can sense some anger in your words. Sometimes writing down exactly what's upsetting you can help process these emotions. Would you like to share more about the situation?";
       "It sounds like you're feeling angry, which is a completely valid emotion. Sometimes anger points us toward something important that needs our attention. What do you think your anger might be telling you?";
       "When we feel angry, our bodies often respond physically too. Taking a moment to notice these sensations can sometimes help. Would it help to talk about what triggered these feelings?" ]
   ++ [ "It sounds like you might be experiencing some anxiety. Remember that you're not alone, and many people go through similar feelings. Is there something specific that's causing concern right now?";
       "I notice some worry in your message. Sometimes anxiety is our mind's way of trying to protect us. Can you identify what specifically feels threatening or uncertain?";
       "Your message suggests you might be feeling anxious. Grounding exercises can sometimes help - try noticing 5 things you can see, 4 things you can touch, 3 things you can hear, 2 things you can smell, and 1 thing you can taste.";
       "Feeling anxious or worried is something many of us experience. Sometimes it helps to break down what feels overwhelming into smaller pieces. Would it help to talk about what's causing these feelings?";
       "I hear that you're feeling fearful or anxious. These emotions can be uncomfortable, but they're also normal responses to stress or uncertainty. Would it help to explore some calming techniques together?" ]
   ++ [ "It's wonderful to see you in good spirits! Positive moments like these are great opportunities to reflect on what brings you happiness and how to incorporate more of it into your daily life.";
       "I'm glad to hear you're feeling positive! What's contributed to your good mood today?";
       "It's great to see your upbeat message! Savoring positive emotions can help extend their benefits. Maybe take a moment to really appreciate what's going well right now?";
       "I'm happy to hear you're feeling good! These positive moments are worth celebrating. Is there something specific that brought you joy today?";
       "It's wonderful to hear the positivity in your message! Taking time to notice and appreciate good feelings can actually help strengthen them. What's bringing you happiness right now?" ])%list.

(** A reading of level high whose score is below the 0.7 of the
    supportive-resources paragraph. *)
Definition high_reading : analysis :=
  {| emotional_state := Some (estimate "sadness" 0.8);
     depression_score := 0.64;
     depression_level := "high" |}.

(** A session with a store but an empty user id. *)
Definition anonymous_session : ChatService MemDb :=
  {| db := Some empty_db;
     user_id := Some "";
     ollama_model := "llama3.2";
     conversation_history := [] |}.

(** An event that carries an emotion. *)
Definition has_emotion (entry : event_doc) : bool :=
  match doc_emotion entry with
  | Some _ => true
  | None => false
  end.

(** An event with a time stamp and nothing else. *)
Definition bare_event : event_doc :=
  {| doc_timestamp := Some 1000%Z;
     doc_emotion := None;
     doc_depression_score := None |}.

(** The history of the shared instance, empty before it exists. *)
Definition history_of {Db : Type} (chat_service : option (ChatService Db))
    : list turn :=
  match chat_service with
  | Some s => conversation_history s
  | None => []
  end.

(** * Properties *)
(** ** Comparisons and rounding *)

Lemma Qltb_lt (a b : Q) : Qltb a b = true <-> a < b.
Proof.
  unfold Qltb. rewrite negb_true_iff. split.
  - intros H. apply Qnot_le_lt. intros Hle.
    apply Qle_bool_iff in Hle. congruence.
  - intros H. destruct (Qle_bool b a) eqn:E; [ | reflexivity ].
    apply Qle_bool_iff in E. exfalso. apply (Qlt_not_le _ _ H E).
Qed.

Lemma Qltb_ge (a b : Q) : Qltb a b = false <-> b <= a.
Proof.
  unfold Qltb. rewrite negb_false_iff. apply Qle_bool_iff.
Qed.

Ltac by_cases_Qltb a b :=
  let E := fresh "E" in
  destruct (Qltb a b) eqn:E;
  [ apply Qltb_lt in E | apply Qltb_ge in E ].

Lemma max2_cases (a b : Q) :
  (b <= a /\ max2 a b = a) \/ (a < b /\ max2 a b = b).
Proof.
  unfold max2. by_cases_Qltb a b; [ right | left ]; split; auto.
Qed.

Lemma round_half_even_floor (q : Q) :
  (Qfloor q <= round_half_even q <= Qfloor q + 1)%Z.
Proof.
  unfold round_half_even.
  destruct (Qltb _ _); [ lia | ].
  destruct (Qltb _ _); [ lia | ].
  destruct (Z.even _); lia.
Qed.

Lemma round_half_even_le (q : Q) (n : Z) :
  q <= inject_Z n -> (round_half_even q <= n)%Z.
Proof.
  intros Hq. pose proof (Qfloor_le q) as Hf.
  assert (Hfn : (Qfloor q <= n)%Z).
  { rewrite Zle_Qle. lra. }
  unfold round_half_even.
  by_cases_Qltb (q - inject_Z (Qfloor q)) (1 # 2); [ exact Hfn | ].
  assert (Hlt : (Qfloor q < n)%Z).
  { rewrite Zlt_Qlt. lra. }
  destruct (Qltb _ _); [ lia | ].
  destruct (Z.even _); lia.
Qed.

Lemma round2_unit (q : Q) : 0 <= q <= 1 -> 0 <= round2 q <= 1.
Proof.
  intros [H0 H1]. unfold round2.
  assert (Hlo : (0 <= round_half_even (q * 100))%Z).
  { pose proof (round_half_even_floor (q * 100)) as [Hf _].
    assert (0 <= Qfloor (q * 100))%Z; [ | lia ].
    change 0%Z with (Qfloor 0). apply Qfloor_resp_le. lra. }
  assert (Hhi : (round_half_even (q * 100) <= 100)%Z).
  { apply round_half_even_le. change (inject_Z 100) with 100. lra. }
  rewrite Zle_Qle in Hlo, Hhi.
  change (inject_Z 0) with 0 in Hlo. change (inject_Z 100) with 100 in Hhi.
  generalize dependent (inject_Z (round_half_even (q * 100))).
  intros z Hlo Hhi. unfold Qdiv.
  setoid_replace (/ 100) with (1 # 100) by reflexivity. lra.
Qed.

Lemma round_half_even_error (q : Q) :
  - (1 # 2) <= inject_Z (round_half_even q) - q <= 1 # 2.
Proof.
  pose proof (Qfloor_le q) as Hf. pose proof (Qlt_floor q) as Hc.
  rewrite inject_Z_plus in Hc. change (inject_Z 1) with 1 in Hc.
  unfold round_half_even.
  by_cases_Qltb (q - inject_Z (Qfloor q)) (1 # 2); [ lra | ].
  by_cases_Qltb (1 # 2) (q - inject_Z (Qfloor q)).
  - rewrite inject_Z_plus. change (inject_Z 1) with 1. lra.
  - destruct (Z.even _); [ lra | ].
    rewrite inject_Z_plus. change (inject_Z 1) with 1. lra.
Qed.

(** ** Level classification *)

(** C6. The level is decided by the value of the score alone (two fractions
    for the same number get the same level), and the three levels partition
    the scores at 0.3 and 0.6: below 0.3 is low, from 0.3 up to but
    excluding 0.6 is moderate, from 0.6 on is high; 0.3 itself is moderate
    and 0.6 itself is high. *)
Theorem classify_depression_level_partition (score score' : Q) :
  score == score' ->
  _classify_depression_level score' = _classify_depression_level score
  /\ ((score < 0.3 /\ _classify_depression_level score = "low")
      \/ (0.3 <= score /\ score < 0.6
          /\ _classify_depression_level score = "moderate")
      \/ (0.6 <= score /\ _classify_depression_level score = "high"))
  /\ _classify_depression_level 0.3 = "moderate"
  /\ _classify_depression_level 0.6 = "high".
Proof.
  intros Heq. unfold _classify_depression_level.
  repeat split; try reflexivity.
  - by_cases_Qltb score 0.3; by_cases_Qltb score' 0.3; try reflexivity;
      try (exfalso; lra).
    by_cases_Qltb score 0.6; by_cases_Qltb score' 0.6; try reflexivity;
      exfalso; lra.
  - by_cases_Qltb score 0.3; [ left; split; [ exact E | reflexivity ] | ].
    by_cases_Qltb score 0.6; [ right; left | right; right ]; auto.
Qed.

Lemma classify_depression_level_partition_witness :
  _classify_depression_level (30 # 100) = _classify_depression_level (3 # 10)
  /\ _classify_depression_level (3 # 10) = "moderate".
Proof.
  destruct (classify_depression_level_partition (3 # 10) (30 # 100))
    as (H & _ & H3 & _); [ reflexivity | ].
  split; [ exact H | exact H3 ].
Defined.

(** ** Two-input fusion *)

Lemma fuse_text_image (t i : emotion) :
  truthy (Some t) = true -> truthy (Some i) = true ->
  fuse_emotions (Some t) None (Some i) = fuse_pair 0.7 0.3 t i.
Proof.
  intros Ht Hi. unfold fuse_emotions. rewrite Ht, Hi. reflexivity.
Qed.

Lemma fuse_audio_image (a i : emotion) :
  truthy (Some a) = true -> truthy (Some i) = true ->
  fuse_emotions None (Some a) (Some i) = fuse_pair 0.6 0.4 a i.
Proof.
  intros Ha Hi. unfold fuse_emotions. rewrite Ha, Hi. reflexivity.
Qed.

Lemma fuse_pair_same_label (wa wb : Q) (l : string) (a b : Q) :
  fuse_pair wa wb (estimate l a) (estimate l b)
  = Ok (estimate l (a * wa + b * wb)).
Proof.
  unfold fuse_pair. cbn. rewrite String.eqb_refl. reflexivity.
Qed.

Lemma fuse_pair_other_label (wa wb : Q) (la lb : string) (a b : Q) :
  la <> lb ->
  fuse_pair wa wb (estimate la a) (estimate lb b)
  = Ok (estimate (if Qle_bool (b * wb) (a * wa) then la else lb)
          (max2 (a * wa) (b * wb))).
Proof.
  intros Hne. unfold fuse_pair. cbn.
  destruct (String.eqb la lb) eqn:E.
  - apply String.eqb_eq in E. contradiction.
  - destruct (Qle_bool (b * wb) (a * wa)); reflexivity.
Qed.

(** C3. When the two estimates carry the same label, text+image fusion
    returns that label with score scoreA*0.7 + scoreB*0.3 and audio+image
    fusion returns it with score scoreA*0.6 + scoreB*0.4; this holds for all
    scores, those of [0,1] included. *)
Theorem fuse_two_agreeing_labels (l : string) (a b : Q) :
  fuse_emotions (Some (estimate l a)) None (Some (estimate l b))
  = Ok (estimate l (a * 0.7 + b * 0.3))
  /\ fuse_emotions None (Some (estimate l a)) (Some (estimate l b))
     = Ok (estimate l (a * 0.6 + b * 0.4)).
Proof.
  split.
  - rewrite fuse_text_image by reflexivity. apply fuse_pair_same_label.
  - rewrite fuse_audio_image by reflexivity. apply fuse_pair_same_label.
Qed.

Lemma fuse_pair_weighted_max (wa wb : Q) (la lb : string) (a b : Q) :
  0 < wa -> wa < 1 -> 0 < wb -> wb < 1 -> la <> lb ->
  weighted_max wa wb la lb a b
    (fuse_pair wa wb (estimate la a) (estimate lb b)).
Proof.
  intros Hwa Hwa1 Hwb Hwb1 Hne.
  rewrite fuse_pair_other_label by exact Hne.
  unfold weighted_max.
  destruct (Qle_bool (b * wb) (a * wa)) eqn:E.
  - apply Qle_bool_iff in E.
    exists la, (max2 (a * wa) (b * wb)).
    destruct (max2_cases (a * wa) (b * wb)) as [[_ Hm] | [Hlt _]];
      [ | exfalso; lra ].
    rewrite Hm. split; [ reflexivity | ].
    split; [ left; split; [ reflexivity | split; [ reflexivity | exact E ] ] | ].
    split; [ intros Ha Hb; nra | ].
    split; [ intros _ Ha; nra | intros Hl; contradiction ].
  - assert (Hlt : a * wa < b * wb).
    { apply Qnot_le_lt. intros Hle. apply Qle_bool_iff in Hle. congruence. }
    exists lb, (max2 (a * wa) (b * wb)).
    destruct (max2_cases (a * wa) (b * wb)) as [[Hle _] | [_ Hm]];
      [ exfalso; lra | ].
    rewrite Hm. split; [ reflexivity | ].
    split; [ right; split; [ reflexivity | split; [ reflexivity | lra ] ] | ].
    split; [ intros Ha Hb; nra | ].
    split; [ intros Hl; symmetry in Hl; contradiction | intros _ Hb; nra ].
Qed.

(** C4, as the code has it.  When the two estimates carry different labels,
    text+image fusion (weights 0.7, 0.3) and audio+image fusion (weights
    0.6, 0.4) return one of the two labels and, as the fused score, the
    weighted score of that label, which is the larger of the two weighted
    scores; so the label is the one whose weighted score is larger whenever
    the two differ.  The fused score is strictly smaller than the sum of the
    two weighted scores when both scores are positive, and strictly smaller
    than the raw score of the returned label when that score is positive,
    whatever the other score. *)
Theorem fuse_two_differing_labels (la lb : string) (a b : Q) :
  la <> lb ->
  weighted_max 0.7 0.3 la lb a b
    (fuse_emotions (Some (estimate la a)) None (Some (estimate lb b)))
  /\ weighted_max 0.6 0.4 la lb a b
       (fuse_emotions None (Some (estimate la a)) (Some (estimate lb b))).
Proof.
  intros Hne. split.
  - rewrite fuse_text_image by reflexivity.
    apply fuse_pair_weighted_max; [ lra .. | exact Hne ].
  - rewrite fuse_audio_image by reflexivity.
    apply fuse_pair_weighted_max; [ lra .. | exact Hne ].
Qed.

Lemma fuse_two_differing_labels_witness :
  weighted_max 0.7 0.3 "joy" "sadness" 0.9 0.8
    (fuse_emotions (Some (estimate "joy" 0.9)) None
       (Some (estimate "sadness" 0.8))).
Proof.
  apply (fuse_two_differing_labels "joy" "sadness" 0.9 0.8). discriminate.
Defined.

(** With an image estimate of score 0 (what a failed classification yields)
    the fused score is the sum of the two weighted scores; with text 0.3 and
    image 1.0 the fused score 0.3 is the raw text score. *)
Lemma fuse_two_differing_labels_meets_sum_and_raw :
  "joy" <> "unknown"
  /\ ~ never_sum_nor_raw 0.7 0.3 0.9 0
         (fuse_emotions (Some (estimate "joy" 0.9)) None (Some unknown))
  /\ "joy" <> "sadness"
  /\ ~ never_sum_nor_raw 0.7 0.3 0.3 1
         (fuse_emotions (Some (estimate "joy" 0.3)) None
            (Some (estimate "sadness" 1))).
Proof.
  repeat split; try discriminate.
  - intros (l & s & H & Hsum & _). vm_compute in H.
    injection H as _ Hs. subst s. apply Hsum. reflexivity.
  - intros (l & s & H & _ & Hraw & _). vm_compute in H.
    injection H as _ Hs. subst s. apply Hraw. reflexivity.
Qed.

(** ** Three-input fusion *)

(** C1, at the scenario of the specification.  With text {joy, 0.9}, audio
    {joy, 0.6} and image {sadness, 0.8} the dict literal of the three-input
    branch keeps one entry for joy, the one written last (0.6*0.3 = 0.18,
    not 0.9*0.5 + 0.6*0.3 = 0.63), so the fused emotion is {joy, 0.18}. *)
Theorem fuse_three_scenario_overwrites :
  exists s,
    fuse_emotions (Some (estimate "joy" 0.9)) (Some (estimate "joy" 0.6))
      (Some (estimate "sadness" 0.8))
    = Ok (estimate "joy" s)
    /\ s == 0.18 /\ ~ s == 0.63.
Proof.
  eexists. split; [ vm_compute; reflexivity | ].
  split; [ reflexivity | discriminate ].
Qed.

Lemma fuse_three_agreeing_text_audio (l l' : string) (st sa si : Q) :
  l <> l' ->
  fuse_emotions (Some (estimate l st)) (Some (estimate l sa))
    (Some (estimate l' si))
  = Ok (if Qltb (sa * 0.3) (si * 0.2) then estimate l' (si * 0.2)
        else estimate l (sa * 0.3)).
Proof.
  intros Hne. unfold fuse_emotions, fuse_three. cbn.
  rewrite String.eqb_refl. cbn.
  assert (E : String.eqb l' l = false).
  { apply String.eqb_neq. intros H. apply Hne. symmetry. exact H. }
  rewrite E. cbn.
  destruct (Qltb (sa * 0.3) (si * 0.2)); cbn.
  - rewrite E, String.eqb_refl. reflexivity.
  - rewrite String.eqb_refl. reflexivity.
Qed.

(** ** Depression score *)

Lemma depression_indicators_table (label : string) :
  get_or label depression_indicators 0.3 = indicator_weight label.
Proof.
  unfold indicator_weight, depression_indicators. cbn.
  repeat match goal with
         | |- context [String.eqb label ?s] =>
             let E := fresh "E" in
             destruct (String.eqb label s) eqn:E;
             [ apply String.eqb_eq in E; subst label; reflexivity | ]
         end.
  reflexivity.
Qed.

Lemma indicator_weight_unit (label : string) :
  0 <= indicator_weight label <= 1.
Proof.
  unfold indicator_weight.
  repeat match goal with
         | |- context [String.eqb label ?s] => destruct (String.eqb label s)
         end; lra.
Qed.

(** The score formula, whatever dict the fusion hands over: a missing label
    counts as "unknown", a missing score as 0.5. *)
Lemma detect_depression_score_formula (self : EmotionDetector)
    (path_exists : string -> bool) (text audio_path image_path : option string)
    (r : analysis) :
  detect_depression self path_exists text audio_path image_path = Ok r ->
  exists fused,
    emotional_state r = Some fused
    /\ depression_score r
       = round2 (indicator_weight (lower (get_label fused "unknown"))
                 * get_score fused 0.5).
Proof.
  unfold detect_depression. intros H.
  destruct (fuse_emotions _ _ _) as [fused | e]; [ | discriminate ].
  cbn [bind] in H. injection H as <-. exists fused.
  cbn [emotional_state depression_score].
  rewrite <- depression_indicators_table. split; reflexivity.
Qed.

(** ** Scores stay in the unit interval *)

Lemma dict_set_values (lo hi : Q) (k : string) (v : Q) (d : scores_dict) :
  lo <= v <= hi -> values_in lo hi d -> values_in lo hi (dict_set k v d).
Proof.
  intros Hv. unfold values_in. induction d as [ | [k' v'] r IH ]; intros Hd.
  - constructor; [ exact Hv | constructor ].
  - inversion Hd as [ | ? ? Hkv Hr ]; subst. cbn.
    destruct (String.eqb k k').
    + constructor; [ exact Hv | exact Hr ].
    + constructor; [ exact Hkv | apply IH; exact Hr ].
Qed.

Lemma max_key_in (d : scores_dict) (best : string * Q) :
  In (max_key d best) (best :: d).
Proof.
  revert best. induction d as [ | [k v] r IH ]; intros best; cbn.
  - left. reflexivity.
  - destruct (Qltb (snd best) v).
    + right. apply IH.
    + destruct (IH best) as [H | H]; [ left; exact H | right; right; exact H ].
Qed.

Lemma dict_get_in (k : string) (v0 : Q) (d : scores_dict) :
  In (k, v0) d -> exists v k', dict_get k d = Ok v /\ In (k', v) d.
Proof.
  induction d as [ | [k' v'] r IH ]; intros Hin; [ contradiction | ].
  cbn. destruct (String.eqb k k') eqn:E.
  - exists v', k'. split; [ reflexivity | left; reflexivity ].
  - destruct Hin as [Heq | Hin].
    + injection Heq as -> _. rewrite String.eqb_refl in E. discriminate.
    + destruct (IH Hin) as (v & k'' & Hget & Hin').
      exists v, k''. split; [ exact Hget | right; exact Hin' ].
Qed.

Lemma dict_set_nonempty (k : string) (v : Q) (d : scores_dict) :
  dict_set k v d <> [].
Proof.
  destruct d as [ | [k' v'] r ]; cbn; [ discriminate | ].
  destruct (String.eqb k k'); discriminate.
Qed.

Lemma fuse_three_unit (lt la li : string) (st sa si : Q) :
  0 <= st <= 1 -> 0 <= sa <= 1 -> 0 <= si <= 1 ->
  exists l s,
    fuse_three (estimate lt st) (estimate la sa) (estimate li si)
    = Ok (estimate l s) /\ 0 <= s <= 1.
Proof.
  intros Ht Ha Hi. unfold fuse_three. cbn [item_label item_score label score
    estimate bind].
  set (scores := dict_set li _ _).
  assert (Hvals : values_in 0 1 scores).
  { unfold scores. repeat apply dict_set_values; try lra. constructor. }
  assert (Hne : scores <> []) by apply dict_set_nonempty.
  destruct scores as [ | first rest ] eqn:Es; [ contradiction | ].
  pose proof (max_key_in rest first) as Hin.
  destruct (max_key rest first) as [fl fv] eqn:Em. cbn [fst].
  destruct (dict_get_in fl fv (first :: rest) Hin)
    as (v & k' & Hget & Hin').
  rewrite Hget. cbn [bind]. exists fl, v. split; [ reflexivity | ].
  unfold values_in in Hvals. rewrite Forall_forall in Hvals.
  apply (Hvals (k', v) Hin').
Qed.

Lemma fuse_pair_unit (wa wb : Q) (la lb : string) (a b : Q) :
  0 <= wa -> 0 <= wb -> wa + wb <= 1 ->
  0 <= a <= 1 -> 0 <= b <= 1 ->
  exists l s,
    fuse_pair wa wb (estimate la a) (estimate lb b) = Ok (estimate l s)
    /\ 0 <= s <= 1.
Proof.
  intros Hwa Hwb Hw Ha Hb.
  destruct (string_dec la lb) as [-> | Hne].
  - rewrite fuse_pair_same_label. eexists _, _. split; [ reflexivity | nra ].
  - rewrite fuse_pair_other_label by exact Hne.
    eexists _, _. split; [ reflexivity | ].
    destruct (max2_cases (a * wa) (b * wb)) as [[_ ->] | [_ ->]]; nra.
Qed.

Lemma fuse_emotions_unit (t a i : option emotion) :
  unit_input t -> unit_input a -> unit_input i ->
  exists l s, fuse_emotions t a i = Ok (estimate l s) /\ 0 <= s <= 1.
Proof.
  assert (Hunknown : exists l s, @Ok emotion unknown = Ok (estimate l s)
                                 /\ 0 <= s <= 1).
  { exists "unknown", 0. split; [ reflexivity | lra ]. }
  destruct t as [t | ], a as [a | ], i as [i | ]; cbn [unit_input];
    intros Ht Ha Hi;
    repeat match goal with
           | H : unit_estimate _ |- _ =>
               let l := fresh "l" in
               let s := fresh "s" in
               let Hs := fresh "Hs" in
               destruct H as (l & s & -> & Hs)
           | H : True |- _ => clear H
           end;
    unfold fuse_emotions; cbn [truthy estimate andb negb the];
    try exact Hunknown;
    try (eexists _, _; split; [ reflexivity | assumption ]).
  - apply fuse_three_unit; assumption.
  - apply fuse_pair_unit; (lra || assumption).
  - apply fuse_pair_unit; (lra || assumption).
Qed.

(** ** Depression score of a fused emotion *)

Lemma fuse_three_well_formed (lt la li : string) (st sa si : Q) :
  well_formed (estimate lt st) ->
  exists l s,
    fuse_three (estimate lt st) (estimate la sa) (estimate li si)
    = Ok (estimate l s).
Proof.
  intros _. unfold fuse_three.
  cbn [item_label item_score label score estimate bind].
  set (scores := dict_set li _ _).
  assert (Hne : scores <> []) by apply dict_set_nonempty.
  destruct scores as [ | first rest ]; [ contradiction | ].
  pose proof (max_key_in rest first) as Hin.
  destruct (max_key rest first) as [fl fv]. cbn [fst].
  destruct (dict_get_in fl fv (first :: rest) Hin) as (v & k' & Hget & _).
  rewrite Hget. exists fl, v. reflexivity.
Qed.

Lemma fuse_pair_well_formed (wa wb : Q) (la lb : string) (a b : Q) :
  exists l s,
    fuse_pair wa wb (estimate la a) (estimate lb b) = Ok (estimate l s).
Proof.
  destruct (string_dec la lb) as [-> | Hne].
  - rewrite fuse_pair_same_label. eexists _, _. reflexivity.
  - rewrite fuse_pair_other_label by exact Hne. eexists _, _. reflexivity.
Qed.

Lemma fuse_emotions_well_formed (t a i : option emotion) :
  well_formed_input t -> well_formed_input a -> well_formed_input i ->
  exists l s, fuse_emotions t a i = Ok (estimate l s).
Proof.
  destruct t as [t | ], a as [a | ], i as [i | ]; cbn [well_formed_input];
    intros Ht Ha Hi;
    repeat match goal with
           | H : well_formed _ |- _ =>
               let l := fresh "l" in
               let s := fresh "s" in
               destruct H as (l & s & ->)
           | H : True |- _ => clear H
           end;
    unfold fuse_emotions; cbn [truthy estimate andb negb the];
    try (eexists _, _; reflexivity).
  - apply fuse_three_well_formed. eexists _, _. reflexivity.
  - apply fuse_pair_well_formed.
  - apply fuse_pair_well_formed.
Qed.

Lemma unknown_well_formed : well_formed unknown.
Proof.
  exists "unknown", 0. reflexivity.
Qed.

Lemma detect_from_text_well_formed (self : EmotionDetector) (text : string) :
  well_formed_detector self -> well_formed (detect_from_text self text).
Proof.
  intros [Ht _]. unfold detect_from_text.
  destruct (text_pipeline self) as [f | ] eqn:Ef;
    [ | apply unknown_well_formed ].
  destruct (f text) as [e | x] eqn:Ee; [ | apply unknown_well_formed ].
  apply (Ht f text e eq_refl Ee).
Qed.

Lemma detect_from_image_well_formed (self : EmotionDetector) (path : string) :
  well_formed_detector self -> well_formed (detect_from_image self path).
Proof.
  intros [_ Hi]. unfold detect_from_image.
  destruct (image_pipeline self) as [f | ] eqn:Ef;
    [ | apply unknown_well_formed ].
  destruct (f path) as [e | x] eqn:Ee; [ | apply unknown_well_formed ].
  apply (Hi f path e eq_refl Ee).
Qed.

Lemma detect_from_audio_well_formed (self : EmotionDetector) (path : string) :
  well_formed_detector self -> well_formed (detect_from_audio self path).
Proof.
  intros [Ht _]. unfold detect_from_audio.
  destruct (audio_pipeline self) as [g | ]; [ | apply unknown_well_formed ].
  destruct (text_pipeline self) as [f | ] eqn:Ef;
    [ | apply unknown_well_formed ].
  destruct (g path) as [text | x]; cbn [bind];
    [ | apply unknown_well_formed ].
  destruct (f text) as [e | x] eqn:Ee; [ | apply unknown_well_formed ].
  apply (Ht f text e eq_refl Ee).
Qed.

Lemma round2_nearest_hundredth (q : Q) : nearest_hundredth q (round2 q).
Proof.
  exists (round_half_even (q * 100)). split; [ reflexivity | ].
  apply round_half_even_error.
Qed.

(** C5. With classifiers that return well-formed estimates,
    [detect_depression] returns; the emotional state it reports is the
    fusion {label, score} of the classifiers' answers for the inputs given,
    and the depression score is the indicator weight of that label (compared
    in lower case; sadness 0.8, fear 0.6, disgust 0.5, anger 0.4, neutral
    0.2, surprise 0.1, joy 0.0, any other label 0.3) times the fused score,
    rounded to 2 decimal places: a whole number of hundredths at most half a
    hundredth away from the product. *)
Theorem depression_score_weight_times_score (self : EmotionDetector)
    (path_exists : string -> bool)
    (text audio_path image_path : option string) :
  well_formed_detector self ->
  exists r l s,
    detect_depression self path_exists text audio_path image_path = Ok r
    /\ fuse_emotions (text_estimate self text)
         (audio_estimate self path_exists audio_path)
         (image_estimate self path_exists image_path)
       = Ok (estimate l s)
    /\ emotional_state r = Some (estimate l s)
    /\ nearest_hundredth (indicator_weight (lower l) * s)
         (depression_score r).
Proof.
  intros Hdet. unfold detect_depression.
  fold (text_estimate self text).
  fold (audio_estimate self path_exists audio_path).
  fold (image_estimate self path_exists image_path).
  destruct (fuse_emotions_well_formed (text_estimate self text)
              (audio_estimate self path_exists audio_path)
              (image_estimate self path_exists image_path))
    as (l & s & Hf).
  - unfold text_estimate.
    destruct (arg_truthy text); cbn [well_formed_input]; [ | exact I ].
    apply detect_from_text_well_formed. exact Hdet.
  - unfold audio_estimate.
    destruct (arg_truthy audio_path && path_exists (arg audio_path))%bool;
      cbn [well_formed_input]; [ | exact I ].
    apply detect_from_audio_well_formed. exact Hdet.
  - unfold image_estimate.
    destruct (arg_truthy image_path && path_exists (arg image_path))%bool;
      cbn [well_formed_input]; [ | exact I ].
    apply detect_from_image_well_formed. exact Hdet.
  - rewrite Hf. cbn [bind]. eexists _, l, s.
    split; [ reflexivity | ]. split; [ reflexivity | ].
    split; [ reflexivity | ].
    cbn [depression_score get_label get_score estimate label score].
    rewrite depression_indicators_table. apply round2_nearest_hundredth.
Qed.

Lemma constant_detector_well_formed (l : string) (s : Q) :
  well_formed_detector (constant_detector (estimate l s)).
Proof.
  split; intros f x e Hf He; cbn in Hf.
  - injection Hf as <-. injection He as <-. exists l, s. reflexivity.
  - discriminate.
Qed.

Lemma depression_score_weight_times_score_witness :
  exists r l s,
    detect_depression (constant_detector (estimate "sadness" 0.9))
      (fun _ => false) (Some "I feel low") None None = Ok r
    /\ fuse_emotions
         (text_estimate (constant_detector (estimate "sadness" 0.9))
            (Some "I feel low"))
         (audio_estimate (constant_detector (estimate "sadness" 0.9))
            (fun _ => false) None)
         (image_estimate (constant_detector (estimate "sadness" 0.9))
            (fun _ => false) None)
       = Ok (estimate l s)
    /\ emotional_state r = Some (estimate l s)
    /\ nearest_hundredth (indicator_weight (lower l) * s)
         (depression_score r).
Proof.
  apply (depression_score_weight_times_score
           (constant_detector (estimate "sadness" 0.9)) (fun _ => false)
           (Some "I feel low") None None).
  apply constant_detector_well_formed.
Defined.

(** The scenario of the specification: a fused {sadness, 0.9} scores
    round(0.8 * 0.9, 2) = 0.72, which is high. *)
Lemma depression_score_sadness_scenario :
  detect_depression (constant_detector (estimate "sadness" 0.9))
    (fun _ => false) (Some "I feel low") None None = Ok sadness_analysis.
Proof.
  vm_compute. reflexivity.
Qed.

Lemma unknown_unit : unit_estimate unknown.
Proof.
  exists "unknown", 0. split; [ reflexivity | lra ].
Qed.

Lemma detect_from_text_unit (self : EmotionDetector) (text : string) :
  unit_detector self -> unit_estimate (detect_from_text self text).
Proof.
  intros [Ht _]. unfold detect_from_text.
  destruct (text_pipeline self) as [f | ] eqn:Ef; [ | apply unknown_unit ].
  destruct (f text) as [e | x] eqn:Ee; [ | apply unknown_unit ].
  apply (Ht f text e eq_refl Ee).
Qed.

Lemma detect_from_image_unit (self : EmotionDetector) (path : string) :
  unit_detector self -> unit_estimate (detect_from_image self path).
Proof.
  intros [_ Hi]. unfold detect_from_image.
  destruct (image_pipeline self) as [f | ] eqn:Ef; [ | apply unknown_unit ].
  destruct (f path) as [e | x] eqn:Ee; [ | apply unknown_unit ].
  apply (Hi f path e eq_refl Ee).
Qed.

Lemma detect_from_audio_unit (self : EmotionDetector) (path : string) :
  unit_detector self -> unit_estimate (detect_from_audio self path).
Proof.
  intros [Ht _]. unfold detect_from_audio.
  destruct (audio_pipeline self) as [g | ]; [ | apply unknown_unit ].
  destruct (text_pipeline self) as [f | ] eqn:Ef; [ | apply unknown_unit ].
  destruct (g path) as [text | x]; cbn [bind]; [ | apply unknown_unit ].
  destruct (f text) as [e | x] eqn:Ee; [ | apply unknown_unit ].
  apply (Ht f text e eq_refl Ee).
Qed.

(** C9. When every estimate handed to the fusion has its score in [0,1],
    [fuse_emotions] returns an estimate whose score is in [0,1]; and when the
    classifiers only return such estimates, [detect_depression] returns a
    depression score in [0,1]. *)
Theorem scores_in_unit_interval (self : EmotionDetector)
    (path_exists : string -> bool)
    (text audio_path image_path : option string)
    (t a i : option emotion) :
  unit_detector self ->
  unit_input t -> unit_input a -> unit_input i ->
  (exists l s, fuse_emotions t a i = Ok (estimate l s) /\ 0 <= s <= 1)
  /\ (exists r,
        detect_depression self path_exists text audio_path image_path = Ok r
        /\ 0 <= depression_score r <= 1).
Proof.
  intros Hdet Ht Ha Hi. split; [ apply fuse_emotions_unit; assumption | ].
  unfold detect_depression.
  match goal with
  | |- context [fuse_emotions ?x ?y ?z] =>
      destruct (fuse_emotions_unit x y z) as (l & s & Hf & Hs)
  end.
  - destruct (arg_truthy text); cbn [unit_input]; [ | exact I ].
    apply detect_from_text_unit. exact Hdet.
  - destruct (arg_truthy audio_path && path_exists (arg audio_path))%bool;
      cbn [unit_input]; [ | exact I ].
    apply detect_from_audio_unit. exact Hdet.
  - destruct (arg_truthy image_path && path_exists (arg image_path))%bool;
      cbn [unit_input]; [ | exact I ].
    apply detect_from_image_unit. exact Hdet.
  - rewrite Hf. cbn [bind]. eexists. split; [ reflexivity | ].
    cbn [depression_score get_label get_score estimate label score].
    rewrite depression_indicators_table.
    apply round2_unit.
    pose proof (indicator_weight_unit (lower l)) as Hw.
    nra.
Qed.

Lemma constant_detector_unit (l : string) (s : Q) :
  0 <= s <= 1 -> unit_detector (constant_detector (estimate l s)).
Proof.
  intros Hs. split; intros f x e Hf He; cbn in Hf.
  - injection Hf as <-. injection He as <-. exists l, s. split; auto.
  - discriminate.
Qed.

Lemma scores_in_unit_interval_witness :
  (exists l s,
      fuse_emotions (Some (estimate "joy" 1)) None (Some (estimate "joy" 1))
      = Ok (estimate l s) /\ 0 <= s <= 1)
  /\ (exists r,
        detect_depression (constant_detector (estimate "sadness" 1))
          (fun _ => false) (Some "I feel low") None None = Ok r
        /\ 0 <= depression_score r <= 1).
Proof.
  apply (scores_in_unit_interval
           (constant_detector (estimate "sadness" 1)) (fun _ => false)
           (Some "I feel low") None None
           (Some (estimate "joy" 1)) None (Some (estimate "joy" 1))).
  - apply constant_detector_unit. lra.
  - exists "joy", 1. split; [ reflexivity | lra ].
  - exact I.
  - exists "joy", 1. split; [ reflexivity | lra ].
Defined.

(** ** Chat turns *)

Lemma lstrip_chars_spaces (l : list ascii) :
  forallb is_space l = true -> lstrip_chars l = [].
Proof.
  induction l as [ | c r IH ]; cbn; [ reflexivity | ].
  intros H. apply andb_true_iff in H as [Hc Hr].
  rewrite Hc. apply IH. exact Hr.
Qed.

Lemma lstrip_chars_keeps (l : list ascii) :
  forallb is_space l = false -> lstrip_chars l <> [].
Proof.
  induction l as [ | c r IH ]; cbn; [ discriminate | ].
  destruct (is_space c); cbn; [ exact IH | discriminate ].
Qed.

Lemma forallb_rev {A : Type} (f : A -> bool) (l : list A) :
  forallb f (rev l) = forallb f l.
Proof.
  induction l as [ | x r IH ]; cbn; [ reflexivity | ].
  rewrite forallb_app, IH. cbn. rewrite andb_true_r. apply andb_comm.
Qed.

Lemma lstrip_chars_suffix (l : list ascii) :
  exists spaces,
    l = (spaces ++ lstrip_chars l)%list /\ forallb is_space spaces = true.
Proof.
  induction l as [ | c r (sp & IH & Hsp) ]; cbn.
  - exists []. split; reflexivity.
  - destruct (is_space c) eqn:Ec.
    + exists (c :: sp). cbn. rewrite Ec, Hsp. split; [ | reflexivity ].
      f_equal. exact IH.
    + exists []. split; reflexivity.
Qed.

(** [blank] holds exactly of the absent, empty and whitespace-only
    messages. *)
Lemma blank_whitespace_only (message : option string) :
  blank message = whitespace_only message.
Proof.
  destruct message as [s | ]; [ | reflexivity ].
  unfold blank, whitespace_only, strip. cbn [arg_truthy arg].
  destruct (forallb is_space (list_ascii_of_string s)) eqn:E.
  - rewrite (lstrip_chars_spaces _ E). cbn. apply orb_true_r.
  - assert (Hs : str_truthy s = true).
    { destruct s; [ discriminate | reflexivity ]. }
    rewrite Hs. cbn [negb orb].
    apply negb_false_iff.
    set (inner := lstrip_chars (list_ascii_of_string s)).
    assert (Hinner : forallb is_space inner = false).
    { destruct (lstrip_chars_suffix (list_ascii_of_string s))
        as (sp & Heq & Hsp).
      fold inner in Heq. rewrite Heq, forallb_app, Hsp in E. exact E. }
    rewrite <- forallb_rev in Hinner.
    pose proof (lstrip_chars_keeps _ Hinner) as Hne.
    destruct (lstrip_chars (rev inner)) as [ | c r ] eqn:El;
      [ contradiction | ].
    cbn [rev]. destruct (rev r ++ [c])%list eqn:Er.
    + destruct (rev r); discriminate.
    + reflexivity.
Qed.

Section TurnProperties.

Variable Db : Type.
Variable update_one : Db -> string -> update -> exc Db.
Variable emotion_detector : EmotionDetector.
Variable path_exists : string -> bool.
Variable ollama : option (string -> list turn -> exc string).
Variable system_message : string -> Q -> string -> Q -> string.

(** C7. For an absent, empty or whitespace-only message, [send_message]
    returns the fixed clarification reply and leaves the session as it was:
    the store is not written (no EmotionalEvent, no DepressionRecord), the
    history is not extended, and neither the classifiers nor the scoring
    take part in the result. *)
Theorem blank_message_clarification (w : world) (self : ChatService Db)
    (message : option string) :
  whitespace_only message = true ->
  send_message update_one emotion_detector path_exists ollama
    system_message w self message
  = (self, clarification)
  /\ r_content clarification
     = "I didn't catch that. Could you please say something?".
Proof.
  intros H. unfold send_message.
  rewrite blank_whitespace_only, H. split; reflexivity.
Qed.

Lemma respond_keeps_db (w : world) (self : ChatService Db) (message : string)
    (emotion_result : emotion) (depression_analysis : analysis) :
  db (fst (respond ollama system_message w self message emotion_result
             depression_analysis))
  = db self.
Proof.
  unfold respond.
  destruct (bind (item_label emotion_result) _); [ | reflexivity ].
  match goal with
  | |- context [match ?g with Ok _ => _ | Raise _ => _ end] =>
      destruct g; [ | reflexivity ]
  end.
  destruct (_enhance_response_with_emotional_context _ _ _); reflexivity.
Qed.

Lemma fallback_response_total (n : nat) (l : string) (s : Q) (da : analysis)
    (message : string) :
  exists text,
    _get_fallback_response n (estimate l s) da message = Ok text.
Proof.
  unfold _get_fallback_response. cbn [item_label estimate label bind].
  repeat match goal with
         | |- context [if ?c then _ else _] => destruct c
         end; eexists; reflexivity.
Qed.







End TurnProperties.

(** An Ollama failure alone is absorbed by the inner handler: the reply is
    then the rule-based one, not the connection reply. *)
Lemma ollama_failure_uses_fallback (Db : Type)
    (system_message : string -> Q -> string -> Q -> string)
    (chat : string -> list turn -> exc string) (w : world)
    (self : ChatService Db) (message l : string) (s : Q) (da : analysis) :
  (forall model messages, succeeds (chat model messages) = false) ->
  exists text,
    _get_fallback_response (draw w) (estimate l s) da message = Ok text
    /\ fst (respond (Some chat) system_message w self message
              (estimate l s) da)
       = append_history self {| role := "assistant"; content := text |}.
Proof.
  intros Hdown.
  destruct (fallback_response_total (draw w) l s da message) as (text & Hfb).
  exists text. split; [ exact Hfb | ].
  unfold respond. cbn [item_label item_score estimate label score bind].
  match goal with
  | |- context [chat ?m ?h] =>
      pose proof (Hdown m h) as Hc; destruct (chat m h); [ discriminate | ]
  end.
  rewrite Hfb.
  destruct (_enhance_response_with_emotional_context _ _ _); reflexivity.
Qed.

(** *** A concrete session *)

Lemma blank_message_clarification_witness :
  send_message mem_update_one (constant_detector (estimate "sadness" 0.9))
    (fun _ => false) None short_prompt world0 session0 (Some "   ")
  = (session0, clarification)
  /\ r_content clarification
     = "I didn't catch that. Could you please say something?".
Proof.
  apply (blank_message_clarification MemDb mem_update_one
           (constant_detector (estimate "sadness" 0.9)) (fun _ => false)
           None short_prompt world0 session0 (Some "   ")).
  reflexivity.
Defined.




(** ** Risk badge and report summary *)

Lemma insert_by_timestamp_perm (x : depression_record)
    (l : list depression_record) :
  Permutation (insert_by_timestamp x l) (x :: l).
Proof.
  induction l as [ | y r IH ]; cbn; [ apply Permutation_refl | ].
  destruct (dr_timestamp x <=? dr_timestamp y)%Z; [ apply Permutation_refl | ].
  apply Permutation_trans with (y :: x :: r).
  - apply perm_skip. exact IH.
  - apply perm_swap.
Qed.

Lemma sort_by_timestamp_perm (l : list depression_record) :
  Permutation (sort_by_timestamp l) l.
Proof.
  induction l as [ | x r IH ]; cbn; [ apply perm_nil | ].
  apply Permutation_trans with (x :: sort_by_timestamp r).
  - apply insert_by_timestamp_perm.
  - apply perm_skip. exact IH.
Qed.

Lemma insert_by_timestamp_sorted (x : depression_record)
    (l : list depression_record) :
  StronglySorted older_first l ->
  StronglySorted older_first (insert_by_timestamp x l).
Proof.
  induction l as [ | y r IH ]; intros Hs; cbn.
  - constructor; constructor.
  - inversion Hs as [ | ? ? Hr Hy ]; subst.
    destruct (dr_timestamp x <=? dr_timestamp y)%Z eqn:E.
    + apply Z.leb_le in E. constructor; [ exact Hs | ].
      constructor; [ exact E | ].
      rewrite Forall_forall in Hy |- *. intros z Hz.
      specialize (Hy z Hz). unfold older_first in *. lia.
    + apply Z.leb_gt in E. constructor; [ apply IH; exact Hr | ].
      rewrite Forall_forall in Hy |- *. intros z Hz.
      apply (Permutation_in _ (insert_by_timestamp_perm x r)) in Hz.
      destruct Hz as [<- | Hz]; [ unfold older_first; lia | ].
      apply Hy. exact Hz.
Qed.

Lemma sort_by_timestamp_sorted (l : list depression_record) :
  StronglySorted older_first (sort_by_timestamp l).
Proof.
  induction l as [ | x r IH ]; cbn; [ constructor | ].
  apply insert_by_timestamp_sorted. exact IH.
Qed.

Lemma sorted_split (pre post : list depression_record) :
  StronglySorted older_first (pre ++ post) ->
  forall o r, In o pre -> In r post -> older_first o r.
Proof.
  induction pre as [ | x pre IH ]; intros Hs o r Ho Hr; [ contradiction | ].
  cbn in Hs. inversion Hs as [ | ? ? Hrest Hx ]; subst.
  destruct Ho as [<- | Ho].
  - rewrite Forall_forall in Hx. apply Hx. apply in_or_app. right. exact Hr.
  - apply (IH Hrest o r Ho Hr).
Qed.

(** The window of the badge is the tail of the records in time order: at
    most 5 of them, all of them when there are fewer, none older than a
    record left out. *)
Lemma recent_scores_window (depression_scores : list depression_record) :
  exists older,
    sort_by_timestamp depression_scores
    = (older ++ recent_scores depression_scores)%list
    /\ Permutation (older ++ recent_scores depression_scores)
         depression_scores
    /\ List.length (recent_scores depression_scores)
       = Nat.min 5 (List.length depression_scores)
    /\ (forall o r, In o older -> In r (recent_scores depression_scores) ->
        (dr_timestamp o <= dr_timestamp r)%Z).
Proof.
  pose proof (sort_by_timestamp_perm depression_scores) as Hperm.
  pose proof (sort_by_timestamp_sorted depression_scores) as Hsorted.
  pose proof (Permutation_length Hperm) as Hlen.
  unfold recent_scores.
  destruct (5 <=? List.length (sort_by_timestamp depression_scores))%nat
    eqn:E.
  - apply Nat.leb_le in E. unfold last_n.
    exists (firstn (List.length (sort_by_timestamp depression_scores) - 5)
              (sort_by_timestamp depression_scores)).
    rewrite firstn_skipn. repeat split.
    + exact Hperm.
    + rewrite length_skipn. lia.
    + intros o r Ho Hr.
      apply (sorted_split
               (firstn (List.length (sort_by_timestamp depression_scores) - 5)
                  (sort_by_timestamp depression_scores))
               (skipn (List.length (sort_by_timestamp depression_scores) - 5)
                  (sort_by_timestamp depression_scores)));
        [ rewrite firstn_skipn; exact Hsorted | exact Ho | exact Hr ].
  - apply Nat.leb_gt in E. exists []. cbn [app]. repeat split.
    + exact Hperm.
    + lia.
    + intros o r [].
Qed.

Lemma avg_score_mean (depression_scores : list depression_record) :
  (depression_scores = [] /\ avg_score depression_scores = 0)
  \/ (depression_scores <> []
      /\ avg_score depression_scores
         = sum (map dr_score (recent_scores depression_scores))
           / len (recent_scores depression_scores)).
Proof.
  unfold avg_score.
  destruct depression_scores as [ | x r ]; [ left; split; reflexivity | ].
  right. split; [ discriminate | ].
  destruct (sort_by_timestamp (x :: r)) eqn:E; [ | reflexivity ].
  pose proof (Permutation_length (sort_by_timestamp_perm (x :: r))) as Hl.
  rewrite E in Hl. discriminate.
Qed.

Lemma risk_of_strict (avg : Q) :
  (0.6 < avg /\ risk_of avg = "High")
  \/ (0.3 < avg /\ avg <= 0.6 /\ risk_of avg = "Moderate")
  \/ (avg <= 0.3 /\ risk_of avg = "Low").
Proof.
  unfold risk_of. by_cases_Qltb 0.6 avg; [ left; auto | ].
  by_cases_Qltb 0.3 avg; [ right; left | right; right ]; auto.
Qed.

Lemma summary_of_strict (avg : Q) :
  (0.6 < avg /\ summary_of avg = summary_high)
  \/ (0.3 < avg /\ avg <= 0.6 /\ summary_of avg = summary_moderate)
  \/ (avg <= 0.3 /\ summary_of avg = summary_low).
Proof.
  unfold summary_of. by_cases_Qltb 0.6 avg; [ left; auto | ].
  by_cases_Qltb 0.3 avg; [ right; left | right; right ]; auto.
Qed.

Lemma risk_of_level_off_boundary (avg : Q) :
  avg == 0.3 \/ avg == 0.6
  \/ (lower (risk_of avg) = _classify_depression_level avg
      /\ summary_of avg
         = summary_for_level (_classify_depression_level avg)).
Proof.
  destruct (Qeq_dec avg 0.3) as [H3 | H3]; [ left; exact H3 | ].
  destruct (Qeq_dec avg 0.6) as [H6 | H6]; [ right; left; exact H6 | ].
  right. right.
  unfold risk_of, summary_of, _classify_depression_level.
  by_cases_Qltb 0.6 avg; by_cases_Qltb 0.3 avg;
    by_cases_Qltb avg 0.3; by_cases_Qltb avg 0.6;
    try (split; reflexivity); exfalso;
    first [ lra | apply H6; lra | apply H3; lra ].
Qed.

Lemma risk_of_compat (a b : Q) : a == b -> risk_of a = risk_of b.
Proof.
  intros H. unfold risk_of.
  by_cases_Qltb 0.6 a; by_cases_Qltb 0.6 b; try (exfalso; lra);
    [ reflexivity | ].
  by_cases_Qltb 0.3 a; by_cases_Qltb 0.3 b; try (exfalso; lra); reflexivity.
Qed.

Lemma summary_of_compat (a b : Q) : a == b -> summary_of a = summary_of b.
Proof.
  intros H. unfold summary_of.
  by_cases_Qltb 0.6 a; by_cases_Qltb 0.6 b; try (exfalso; lra);
    [ reflexivity | ].
  by_cases_Qltb 0.3 a; by_cases_Qltb 0.3 b; try (exfalso; lra); reflexivity.
Qed.

(** A window of one record has that record's score as its mean. *)
Lemma avg_score_single (r : depression_record) :
  avg_score [ r ] == dr_score r.
Proof.
  unfold avg_score, recent_scores. cbn. unfold len. cbn. field.
Qed.

Lemma avg_depression_score_single (t : option Z) (s : Q) :
  avg_depression_score
    [ {| timestamp := t; entry_depression_score := Some s |} ]
  == s.
Proof.
  unfold avg_depression_score, report_scores. cbn. unfold len. cbn. field.
Qed.

Lemma level_at_thresholds (m : Q) :
  (m == 0.3 -> _classify_depression_level m = "moderate")
  /\ (m == 0.6 -> _classify_depression_level m = "high").
Proof.
  unfold _classify_depression_level. split; intros H.
  - by_cases_Qltb m 0.3; [ exfalso; lra | ].
    by_cases_Qltb m 0.6; [ reflexivity | exfalso; lra ].
  - by_cases_Qltb m 0.3; [ exfalso; lra | ].
    by_cases_Qltb m 0.6; [ exfalso; lra | reflexivity ].
Qed.

(** C2, as the code has it.  The badge averages the depression scores of the
    most recent 5 records (all of them when fewer, 0 when none), the report
    the scores of its own window, and both classify the mean with strict
    comparisons, [mean > 0.6] and [mean > 0.3]: a mean above 0.6 is high, a
    mean between 0.3 and 0.6 is moderate, a mean below 0.3 is low, and a
    mean that is exactly 0.3 is low and one that is exactly 0.6 is moderate
    — where the level function says moderate and high.  This is what a
    window of one record with such a score gets.  At every other mean the
    badge and the summary agree with the level function.  (Which tier a
    window of several records gets whose exact mean is 0.3 or 0.6 depends on
    how the sum and the quotient round, and is left open.) *)
Theorem risk_and_summary_strict_thresholds
    (depression_scores : list depression_record)
    (emotional_data : list entry) :
  (exists older,
      sort_by_timestamp depression_scores
      = (older ++ recent_scores depression_scores)%list
      /\ Permutation (older ++ recent_scores depression_scores)
           depression_scores
      /\ List.length (recent_scores depression_scores)
         = Nat.min 5 (List.length depression_scores)
      /\ (forall o r, In o older -> In r (recent_scores depression_scores) ->
          (dr_timestamp o <= dr_timestamp r)%Z))
  /\ ((depression_scores = [] /\ avg_score depression_scores = 0)
      \/ (depression_scores <> []
          /\ avg_score depression_scores
             = sum (map dr_score (recent_scores depression_scores))
               / len (recent_scores depression_scores)))
  /\ ((0.6 < avg_score depression_scores ->
       fst (dashboard depression_scores) = "High")
      /\ (0.3 < avg_score depression_scores ->
          avg_score depression_scores < 0.6 ->
          fst (dashboard depression_scores) = "Moderate")
      /\ (avg_score depression_scores < 0.3 ->
          fst (dashboard depression_scores) = "Low"))
  /\ ((0.6 < avg_depression_score emotional_data ->
       report_summary emotional_data = summary_high)
      /\ (0.3 < avg_depression_score emotional_data ->
          avg_depression_score emotional_data < 0.6 ->
          report_summary emotional_data = summary_moderate)
      /\ (avg_depression_score emotional_data < 0.3 ->
          report_summary emotional_data = summary_low))
  /\ (~ avg_score depression_scores == 0.3 ->
      ~ avg_score depression_scores == 0.6 ->
      lower (fst (dashboard depression_scores))
      = _classify_depression_level (avg_score depression_scores))
  /\ (~ avg_depression_score emotional_data == 0.3 ->
      ~ avg_depression_score emotional_data == 0.6 ->
      report_summary emotional_data
      = summary_for_level
          (_classify_depression_level (avg_depression_score emotional_data)))
  /\ (forall mean,
         mean == 0.3 ->
         risk_of mean = "Low" /\ summary_of mean = summary_low
         /\ _classify_depression_level mean = "moderate")
  /\ (forall mean,
         mean == 0.6 ->
         risk_of mean = "Moderate" /\ summary_of mean = summary_moderate
         /\ _classify_depression_level mean = "high")
  /\ (forall r, fst (dashboard [ r ]) = risk_of (dr_score r))
  /\ (forall t s,
         report_summary
           [ {| timestamp := t; entry_depression_score := Some s |} ]
         = summary_of s).
Proof.
  split; [ apply recent_scores_window | ].
  split; [ apply avg_score_mean | ].
  split.
  { cbn [dashboard fst].
    destruct (risk_of_strict (avg_score depression_scores))
      as [[H ->] | [(H3 & H6 & ->) | [H ->]]];
      (split; [ | split ]); intros; first [ reflexivity | exfalso; lra ]. }
  split.
  { unfold report_summary.
    destruct (summary_of_strict (avg_depression_score emotional_data))
      as [[H ->] | [(H3 & H6 & ->) | [H ->]]];
      (split; [ | split ]); intros; first [ reflexivity | exfalso; lra ]. }
  split.
  { intros H3 H6. cbn [dashboard fst].
    destruct (risk_of_level_off_boundary (avg_score depression_scores))
      as [H | [H | [H _]]]; [ contradiction | contradiction | exact H ]. }
  split.
  { intros H3 H6. unfold report_summary.
    destruct (risk_of_level_off_boundary
                (avg_depression_score emotional_data))
      as [H | [H | [_ H]]]; [ contradiction | contradiction | exact H ]. }
  split.
  { intros mean H. rewrite (risk_of_compat mean 0.3 H).
    rewrite (summary_of_compat mean 0.3 H).
    split; [ reflexivity | ]. split; [ reflexivity | ].
    apply level_at_thresholds. exact H. }
  split.
  { intros mean H. rewrite (risk_of_compat mean 0.6 H).
    rewrite (summary_of_compat mean 0.6 H).
    split; [ reflexivity | ]. split; [ reflexivity | ].
    apply level_at_thresholds. exact H. }
  split.
  { intros r. cbn [dashboard fst]. apply risk_of_compat.
    apply avg_score_single. }
  intros t s. unfold report_summary. apply summary_of_compat.
  apply avg_depression_score_single.
Qed.

Lemma risk_and_summary_strict_thresholds_witness :
  fst (dashboard [ {| dr_timestamp := 1000; dr_score := 0.72;
                      dr_level := "high" |};
                   {| dr_timestamp := 1001; dr_score := 0.64;
                      dr_level := "high" |} ]) = "High"
  /\ report_summary [ {| timestamp := Some 1000%Z;
                         entry_depression_score := Some 0.2 |};
                      {| timestamp := Some 1001%Z;
                         entry_depression_score := Some 0.64 |} ]
     = summary_moderate
  /\ fst (dashboard [ boundary_record ]) = "Low"
  /\ _classify_depression_level (dr_score boundary_record) = "moderate".
Proof.
  destruct (risk_and_summary_strict_thresholds
              [ {| dr_timestamp := 1000; dr_score := 0.72;
                   dr_level := "high" |};
                {| dr_timestamp := 1001; dr_score := 0.64;
                   dr_level := "high" |} ]
              [ {| timestamp := Some 1000%Z;
                   entry_depression_score := Some 0.2 |};
                {| timestamp := Some 1001%Z;
                   entry_depression_score := Some 0.64 |} ])
    as (_ & _ & (Hhigh & _) & (_ & Hmod & _) & _ & _ & Hlow & _ & Hone & _).
  split; [ apply Hhigh; vm_compute; reflexivity | ].
  split; [ apply Hmod; vm_compute; reflexivity | ].
  destruct (Hlow (dr_score boundary_record)) as (Hr & _ & Hl);
    [ reflexivity | ].
  split; [ rewrite Hone; exact Hr | exact Hl ].
Defined.

(** A single record of score 0.3 gives the badge a mean of 0.3 and the risk
    Low, where the level function says moderate; a single event of score 0.6
    gives the report a mean of 0.6 and the moderate summary, where the level
    function says high. *)
Lemma boundary_means_differ_from_level :
  avg_score [ boundary_record ] == 0.3
  /\ fst (dashboard [ boundary_record ]) = "Low"
  /\ _classify_depression_level (avg_score [ boundary_record ]) = "moderate"
  /\ lower (fst (dashboard [ boundary_record ]))
     <> _classify_depression_level (avg_score [ boundary_record ])
  /\ avg_depression_score [ boundary_entry ] == 0.6
  /\ report_summary [ boundary_entry ] = summary_moderate
  /\ _classify_depression_level (avg_depression_score [ boundary_entry ])
     = "high"
  /\ report_summary [ boundary_entry ]
     <> summary_for_level
          (_classify_depression_level
             (avg_depression_score [ boundary_entry ])).
Proof.
  repeat split; try reflexivity; vm_compute; discriminate.
Qed.

(** * Further properties of the code *)

(** ** Fusion: which inputs count *)

(** X1. Without an image nothing is weighted: the text estimate comes back as it
    is when there is one — whatever the audio estimate says — else the audio
    estimate, else {unknown, 0.0}.  No key is read, so a dict lacking one
    does not raise here. *)
Theorem fuse_without_image_passes_through (t a : option emotion) :
  fuse_emotions t a None
  = Ok (if truthy t then the t
        else if truthy a then the a
        else unknown).
Proof.
  unfold fuse_emotions. cbn [truthy].
  rewrite !andb_false_r. cbn [andb].
  destruct (truthy t), (truthy a); reflexivity.
Qed.

(** X2. An empty dict counts as a missing argument, in each of the three
    positions. *)
Theorem fuse_empty_dict_is_absent (t a i : option emotion) :
  fuse_emotions (Some empty_dict) a i = fuse_emotions None a i
  /\ fuse_emotions t (Some empty_dict) i = fuse_emotions t None i
  /\ fuse_emotions t a (Some empty_dict) = fuse_emotions t a None.
Proof.
  unfold fuse_emotions, empty_dict.
  split; [ | split ]; reflexivity.
Qed.

Lemma fuse_pair_succeeds (wa wb : Q) (a b : emotion) :
  succeeds (fuse_pair wa wb a b) = true <-> well_formed a /\ well_formed b.
Proof.
  split.
  - unfold fuse_pair, item_label, item_score.
    destruct a as [[la | ] [sa | ]], b as [[lb | ] [sb | ]];
      cbn; try discriminate;
      try (destruct (String.eqb la lb); cbn; discriminate).
    intros _. split; eexists _, _; reflexivity.
  - intros [(la & sa & ->) (lb & sb & ->)].
    destruct (fuse_pair_well_formed wa wb la lb sa sb) as (l & s & ->).
    reflexivity.
Qed.

(** X3. A two-input fusion (text+image or audio+image, both dicts non-empty)
    returns a result exactly when both dicts carry a label and a score;
    with a key missing it raises [KeyError]. *)
Theorem fuse_two_succeeds_iff_well_formed (a i : emotion) :
  truthy (Some a) = true -> truthy (Some i) = true ->
  (succeeds (fuse_emotions (Some a) None (Some i)) = true
   <-> well_formed a /\ well_formed i)
  /\ (succeeds (fuse_emotions None (Some a) (Some i)) = true
      <-> well_formed a /\ well_formed i)
  /\ (succeeds (fuse_emotions (Some a) None (Some i)) = false ->
      exists key, fuse_emotions (Some a) None (Some i) = Raise (KeyError key)).
Proof.
  intros Ha Hi.
  rewrite (fuse_text_image a i Ha Hi), (fuse_audio_image a i Ha Hi).
  split; [ apply fuse_pair_succeeds | ].
  split; [ apply fuse_pair_succeeds | ].
  unfold fuse_pair, item_label, item_score.
  destruct a as [[la | ] [sa | ]], i as [[li | ] [si | ]]; cbn;
    try (destruct (String.eqb la li); cbn);
    try (destruct (Qle_bool _ _); cbn);
    try discriminate; intros _; eexists; reflexivity.
Qed.

Lemma fuse_two_succeeds_iff_well_formed_witness :
  (succeeds (fuse_emotions (Some unlabelled) None (Some unknown)) = true
   <-> well_formed unlabelled /\ well_formed unknown)
  /\ fuse_emotions (Some unlabelled) None (Some unknown)
     = Raise (KeyError "label").
Proof.
  destruct (fuse_two_succeeds_iff_well_formed unlabelled unknown
              eq_refl eq_refl) as (H & _ & _).
  split; [ exact H | reflexivity ].
Defined.

(** ** Fusion of three inputs never adds *)

Lemma dict_set_entries (k : string) (v : Q) (d : scores_dict)
    (k' : string) (v' : Q) :
  In (k', v') (dict_set k v d) -> (k', v') = (k, v) \/ In (k', v') d.
Proof.
  induction d as [ | [k0 v0] r IH ]; cbn.
  - intros [H | []]. left. symmetry. exact H.
  - destruct (String.eqb k k0) eqn:E; cbn.
    + apply String.eqb_eq in E. subst k0.
      intros [H | H]; [ left; symmetry; exact H | right; right; exact H ].
    + intros [H | H]; [ right; left; exact H | ].
      destruct (IH H) as [H' | H']; [ left; exact H' | right; right; exact H' ].
Qed.

Lemma dict_get_entry (k : string) (d : scores_dict) (v : Q) :
  dict_get k d = Ok v -> In (k, v) d.
Proof.
  induction d as [ | [k0 v0] r IH ]; cbn; [ discriminate | ].
  destruct (String.eqb k k0) eqn:E.
  - apply String.eqb_eq in E. subst k0. intros H. injection H as ->.
    left. reflexivity.
  - intros H. right. apply IH. exact H.
Qed.

(** X4. With three well-formed inputs the fused emotion is one of the three
    single weighted estimates — text at 0.5, audio at 0.3 or image at 0.2 —
    also when two or three of the labels agree: weighted scores are never
    added up. *)
Theorem fuse_three_is_one_weighted_input (lt la li : string) (st sa si : Q) :
  exists l s,
    fuse_emotions (Some (estimate lt st)) (Some (estimate la sa))
      (Some (estimate li si))
    = Ok (estimate l s)
    /\ ((l, s) = (lt, st * 0.5) \/ (l, s) = (la, sa * 0.3)
        \/ (l, s) = (li, si * 0.2)).
Proof.
  unfold fuse_emotions. cbn [truthy estimate andb negb the].
  change {| label := Some lt; score := Some st |} with (estimate lt st).
  change {| label := Some la; score := Some sa |} with (estimate la sa).
  change {| label := Some li; score := Some si |} with (estimate li si).
  unfold fuse_three.
  cbn [item_label item_score label score estimate bind].
  set (scores := dict_set li _ _).
  assert (Hentries : forall k v, In (k, v) scores ->
            (k, v) = (lt, st * 0.5) \/ (k, v) = (la, sa * 0.3)
            \/ (k, v) = (li, si * 0.2)).
  { intros k v H. unfold scores in H.
    apply dict_set_entries in H as [H | H]; [ right; right; exact H | ].
    apply dict_set_entries in H as [H | H]; [ right; left; exact H | ].
    apply dict_set_entries in H as [H | []]. left. exact H. }
  assert (Hne : scores <> []) by apply dict_set_nonempty.
  destruct scores as [ | first rest ]; [ contradiction | ].
  pose proof (max_key_in rest first) as Hin.
  destruct (max_key rest first) as [fl fv]. cbn [fst].
  destruct (dict_get_in fl fv (first :: rest) Hin) as (v & k' & Hget & _).
  rewrite Hget. cbn [bind]. exists fl, v. split; [ reflexivity | ].
  apply Hentries. apply dict_get_entry. exact Hget.
Qed.

(** ** Rounding *)

Lemma floor_between (x : Q) (n : Z) :
  inject_Z n <= x -> x < inject_Z (n + 1) -> Qfloor x = n.
Proof.
  intros Hlo Hhi.
  pose proof (Qfloor_le x) as Hf. pose proof (Qlt_floor x) as Hc.
  assert (H1 : (Qfloor x < n + 1)%Z).
  { rewrite Zlt_Qlt. lra. }
  assert (H2 : (n < Qfloor x + 1)%Z).
  { rewrite Zlt_Qlt. lra. }
  lia.
Qed.

Lemma round_half_even_mono (q q' : Q) :
  q <= q' -> (round_half_even q <= round_half_even q')%Z.
Proof.
  intros Hle.
  pose proof (Qfloor_resp_le _ _ Hle) as Hfl.
  pose proof (round_half_even_floor q) as [_ Hup].
  pose proof (round_half_even_floor q') as [Hlo' _].
  destruct (Z.eq_dec (Qfloor q) (Qfloor q')) as [Heq | Hne]; [ | lia ].
  clear Hup Hlo'. unfold round_half_even. rewrite <- Heq.
  by_cases_Qltb (q - inject_Z (Qfloor q)) (1 # 2).
  - by_cases_Qltb (q' - inject_Z (Qfloor q)) (1 # 2); [ lia | ].
    destruct (Qltb _ _); [ lia | ]. destruct (Z.even _); lia.
  - by_cases_Qltb (q' - inject_Z (Qfloor q)) (1 # 2); [ exfalso; lra | ].
    by_cases_Qltb (1 # 2) (q - inject_Z (Qfloor q)).
    + by_cases_Qltb (1 # 2) (q' - inject_Z (Qfloor q));
        [ lia | exfalso; lra ].
    + by_cases_Qltb (1 # 2) (q' - inject_Z (Qfloor q));
        [ destruct (Z.even _); lia | lia ].
Qed.

Lemma round2_mono (q q' : Q) : q <= q' -> round2 q <= round2 q'.
Proof.
  intros Hle. unfold round2.
  assert (H : (round_half_even (q * 100) <= round_half_even (q' * 100))%Z).
  { apply round_half_even_mono. lra. }
  rewrite Zle_Qle in H.
  generalize dependent (inject_Z (round_half_even (q * 100))).
  generalize dependent (inject_Z (round_half_even (q' * 100))).
  intros z' z H. unfold Qdiv.
  setoid_replace (/ 100) with (1 # 100) by reflexivity. lra.
Qed.

Lemma round2_error (q : Q) :
  - (1 # 200) <= round2 q - q <= 1 # 200.
Proof.
  pose proof (round_half_even_error (q * 100)) as H. unfold round2.
  generalize dependent (inject_Z (round_half_even (q * 100))).
  intros z H. unfold Qdiv.
  setoid_replace (/ 100) with (1 # 100) by reflexivity. lra.
Qed.

Lemma round2_upper_half (q : Q) (n : Z) :
  inject_Z n + (1 # 2) <= q * 100 -> q * 100 < inject_Z (n + 1) ->
  Z.odd n = true -> round2 q == inject_Z (n + 1) / 100.
Proof.
  intros Hlo Hhi Hodd.
  assert (Hfloor : Qfloor (q * 100) = n).
  { apply floor_between; [ lra | exact Hhi ]. }
  unfold round2, round_half_even. rewrite Hfloor.
  by_cases_Qltb (q * 100 - inject_Z n) (1 # 2); [ exfalso; lra | ].
  destruct (Qltb _ _); [ reflexivity | ].
  rewrite <- Z.negb_odd, Hodd. reflexivity.
Qed.

(** ** Depression score of a text-only analysis *)

Lemma detect_depression_text_only (l : string) (s : Q)
    (path_exists : string -> bool) (text : string) :
  str_truthy text = true ->
  detect_depression (constant_detector (estimate l s)) path_exists
    (Some text) None None
  = Ok {| emotional_state := Some (estimate l s);
          depression_score := round2 (indicator_weight (lower l) * s);
          depression_level :=
            _classify_depression_level (indicator_weight (lower l) * s) |}.
Proof.
  intros Ht. unfold detect_depression. cbn [arg_truthy arg andb].
  rewrite Ht. unfold detect_from_text, constant_detector.
  cbn [text_pipeline]. unfold fuse_emotions.
  cbn [truthy estimate andb negb the bind get_label get_score label score].
  rewrite depression_indicators_table. reflexivity.
Qed.

(** X5. For a fixed label, a higher classifier confidence never gives a lower
    depression score. *)
Theorem depression_score_monotone_in_confidence (l : string) (s s' : Q)
    (path_exists : string -> bool) (text : string) :
  str_truthy text = true -> s <= s' ->
  succeeds (detect_depression (constant_detector (estimate l s))
              path_exists (Some text) None None) = true
  /\ succeeds (detect_depression (constant_detector (estimate l s'))
                 path_exists (Some text) None None) = true
  /\ score_of (detect_depression (constant_detector (estimate l s))
                 path_exists (Some text) None None)
     <= score_of (detect_depression (constant_detector (estimate l s'))
                    path_exists (Some text) None None).
Proof.
  intros Ht Hle. rewrite !detect_depression_text_only by exact Ht.
  split; [ reflexivity | ]. split; [ reflexivity | ].
  cbn [score_of depression_score]. apply round2_mono.
  pose proof (indicator_weight_unit (lower l)) as Hw. nra.
Qed.

Lemma depression_score_monotone_in_confidence_witness :
  succeeds (detect_depression (constant_detector (estimate "fear" 0.4))
              (fun _ => false) (Some "I am worried") None None) = true
  /\ succeeds (detect_depression (constant_detector (estimate "fear" 0.9))
                 (fun _ => false) (Some "I am worried") None None) = true
  /\ score_of (detect_depression (constant_detector (estimate "fear" 0.4))
              (fun _ => false) (Some "I am worried") None None)
  <= score_of (detect_depression (constant_detector (estimate "fear" 0.9))
                 (fun _ => false) (Some "I am worried") None None).
Proof.
  apply (depression_score_monotone_in_confidence "fear" 0.4 0.9
           (fun _ => false) "I am worried"); [ reflexivity | lra ].
Defined.

(** X6. At equal non-negative confidence the labels rank joy, surprise, neutral,
    any label outside the table (such as "love" or "unknown"), anger,
    disgust, fear, sadness by depression score: a label the table does not
    know weighs more than neutral. *)
Theorem depression_score_label_order (other : string) (s : Q)
    (path_exists : string -> bool) (text : string) :
  str_truthy text = true -> 0 <= s ->
  indicator_weight (lower other) == 0.3 ->
  let score_for l :=
    score_of (detect_depression (constant_detector (estimate l s))
                path_exists (Some text) None None) in
  (forall l,
      succeeds (detect_depression (constant_detector (estimate l s))
                  path_exists (Some text) None None) = true)
  /\ score_for "joy" <= score_for "surprise"
  /\ score_for "surprise" <= score_for "neutral"
  /\ score_for "neutral" <= score_for other
  /\ score_for other <= score_for "anger"
  /\ score_for "anger" <= score_for "disgust"
  /\ score_for "disgust" <= score_for "fear"
  /\ score_for "fear" <= score_for "sadness".
Proof.
  intros Ht Hs Hother score_for. unfold score_for.
  split; [ intros l; rewrite detect_depression_text_only by exact Ht;
           reflexivity | ].
  rewrite !detect_depression_text_only by exact Ht.
  cbn [score_of depression_score].
  repeat split; apply round2_mono;
    repeat match goal with
           | |- context [indicator_weight (lower ?l)] =>
               lazymatch l with
               | other => fail
               | _ => let w := eval vm_compute in (indicator_weight (lower l)) in
                      change (indicator_weight (lower l)) with w
               end
           end; nra.
Qed.

Lemma depression_score_label_order_witness :
  score_of (detect_depression (constant_detector (estimate "neutral" 0.9))
              (fun _ => false) (Some "hm") None None)
  <= score_of (detect_depression (constant_detector (estimate "love" 0.9))
                 (fun _ => false) (Some "hm") None None).
Proof.
  destruct (depression_score_label_order "love" 0.9 (fun _ => false) "hm")
    as (_ & _ & _ & H & _); [ reflexivity | lra | reflexivity | exact H ].
Defined.

(** X7. The level is taken from the score before it is rounded.  So the stored
    score is within 0.005 of the number that was classified, and just below
    a threshold the two disagree: a raw score strictly between 0.295 and 0.3
    is stored as 0.30 with level low, although 0.30 itself classifies as
    moderate.  (At 0.295 itself the stored hundredth depends on how the
    product was rounded in binary, so the interval is open.) *)
Theorem depression_level_precedes_rounding (l : string) (s : Q)
    (path_exists : string -> bool) (text : string) :
  str_truthy text = true ->
  exists r,
    detect_depression (constant_detector (estimate l s)) path_exists
      (Some text) None None = Ok r
    /\ depression_level r
       = _classify_depression_level (indicator_weight (lower l) * s)
    /\ - (1 # 200) <= depression_score r - indicator_weight (lower l) * s
       <= 1 # 200
    /\ (0.295 < indicator_weight (lower l) * s ->
        indicator_weight (lower l) * s < 0.3 ->
        depression_score r == 0.3
        /\ depression_level r = "low"
        /\ _classify_depression_level (depression_score r) = "moderate").
Proof.
  intros Ht. rewrite detect_depression_text_only by exact Ht.
  eexists. split; [ reflexivity | ].
  cbn [depression_level depression_score].
  split; [ reflexivity | ]. split; [ apply round2_error | ].
  intros Hlo Hhi.
  set (raw := indicator_weight (lower l) * s) in *. clearbody raw.
  assert (Hr : round2 raw == 0.3).
  { rewrite (round2_upper_half raw 29);
      [ reflexivity
      | change (inject_Z 29) with 29; lra
      | change (inject_Z (29 + 1)) with 30; lra
      | reflexivity ]. }
  split; [ exact Hr | ].
  unfold _classify_depression_level. split.
  - by_cases_Qltb raw 0.3; [ reflexivity | exfalso; lra ].
  - by_cases_Qltb (round2 raw) 0.3; [ exfalso; lra | ].
    by_cases_Qltb (round2 raw) 0.6; [ reflexivity | exfalso; lra ].
Qed.

Lemma depression_level_precedes_rounding_witness :
  exists r,
    detect_depression (constant_detector (estimate "sadness" 0.37))
      (fun _ => false) (Some "so tired") None None = Ok r
    /\ depression_score r == 0.3
    /\ depression_level r = "low"
    /\ _classify_depression_level (depression_score r) = "moderate".
Proof.
  destruct (depression_level_precedes_rounding "sadness" 0.37
              (fun _ => false) "so tired" eq_refl)
    as (r & Hr & _ & _ & H).
  exists r. split; [ exact Hr | ].
  apply H; vm_compute; reflexivity.
Defined.

(** X8. With nothing to analyse — no text or an empty one, and for audio and
    image no path, an empty path or a path that does not exist — no
    classifier is consulted: the analysis is {unknown, 0.0}, score 0, level
    low, whatever models are loaded. *)
Theorem detect_depression_without_input (self : EmotionDetector)
    (path_exists : string -> bool)
    (text audio_path image_path : option string) :
  arg_truthy text = false ->
  (arg_truthy audio_path && path_exists (arg audio_path))%bool = false ->
  (arg_truthy image_path && path_exists (arg image_path))%bool = false ->
  exists r,
    detect_depression self path_exists text audio_path image_path = Ok r
    /\ emotional_state r = Some unknown
    /\ depression_score r == 0
    /\ depression_level r = "low".
Proof.
  intros Ht Ha Hi. unfold detect_depression. rewrite Ht, Ha, Hi.
  eexists. split; [ reflexivity | ].
  split; [ reflexivity | ]. split; reflexivity.
Qed.

Lemma detect_depression_without_input_witness :
  exists r,
    detect_depression (constant_detector (estimate "sadness" 0.9))
      (fun _ => false) (Some "") None (Some "missing.jpg") = Ok r
    /\ emotional_state r = Some unknown
    /\ depression_score r == 0
    /\ depression_level r = "low".
Proof.
  apply (detect_depression_without_input
           (constant_detector (estimate "sadness" 0.9)) (fun _ => false)
           (Some "") None (Some "missing.jpg")); reflexivity.
Defined.

(** ** The rule-based responder *)

Lemma in_existsb_false {A : Type} (f : A -> bool) (l : list A) (x : A) :
  existsb f l = false -> In x l -> f x = false.
Proof.
  intros Hb Hin. destruct (f x) eqn:E; [ | reflexivity ].
  rewrite <- Hb. symmetry. apply existsb_exists. exists x. split; assumption.
Qed.

Lemma string_append_assoc (a b c : string) : (a ++ b) ++ c = a ++ (b ++ c).
Proof.
  induction a as [ | x r IH ]; cbn; [ reflexivity | rewrite IH; reflexivity ].
Qed.

Lemma string_append_empty (s : string) : s ++ "" = s.
Proof.
  induction s as [ | c r IH ]; cbn; [ reflexivity | rewrite IH; reflexivity ].
Qed.

Lemma choice_in (n : nat) (pool : list string) :
  pool <> [] -> In (choice n pool) pool.
Proof.
  intros Hne. unfold choice. apply nth_In.
  apply Nat.mod_upper_bound. destruct pool; [ contradiction | discriminate ].
Qed.

Lemma choice_in_larger (n : nat) (pool all : list string) :
  pool <> [] ->
  forallb (fun x => existsb (String.eqb x) all) pool = true ->
  In (choice n pool) all.
Proof.
  intros Hne Hall. rewrite forallb_forall in Hall.
  specialize (Hall _ (choice_in n pool Hne)).
  apply existsb_exists in Hall as (y & Hy & Heq).
  apply String.eqb_eq in Heq. subst y. exact Hy.
Qed.

Ltac canned :=
  apply choice_in_larger; [ discriminate | vm_compute; reflexivity ].

(** X9. A message that contains "hello", "hi", "hey" or "greetings" anywhere —
    inside a word too, as the "hi" of "nothing" or "this" — is answered with
    one of the four greetings, whatever the emotion and the risk, and also
    when the emotion dict lacks its label. *)
Theorem fallback_greets_on_substring (n : nat) (emotion : emotion)
    (depression : analysis) (user_message : string) :
  any_in ["hello"; "hi"; "hey"; "greetings"] (lower user_message) = true ->
  exists text,
    _get_fallback_response n emotion depression user_message = Ok text
    /\ In text greetings_pool.
Proof.
  intros H. unfold _get_fallback_response. rewrite H.
  eexists. split; [ reflexivity | ].
  apply choice_in. discriminate.
Qed.

Lemma fallback_greets_on_substring_witness :
  exists text,
    _get_fallback_response 2 (estimate "sadness" 0.95) sadness_analysis
      "I feel sad, nothing helps" = Ok text
    /\ In text greetings_pool.
Proof.
  apply (fallback_greets_on_substring 2 (estimate "sadness" 0.95)
           sadness_analysis "I feel sad, nothing helps").
  reflexivity.
Defined.

(** X10. For an emotion with a label the rule-based responder always answers,
    and with one of its forty canned texts; none of them is empty. *)
Theorem fallback_reply_is_canned (n : nat) (l : string) (s : Q)
    (depression : analysis) (user_message : string) :
  exists text,
    _get_fallback_response n (estimate l s) depression user_message = Ok text
    /\ In text canned_replies
    /\ text <> ""
    /\ List.length canned_replies = 40%nat.
Proof.
  assert (Hnonempty : forall t, In t canned_replies -> t <> "").
  { intros t Ht E. subst t. revert Ht.
    assert (Hb : existsb (String.eqb "") canned_replies = false)
      by (vm_compute; reflexivity).
    intros Hin. pose proof (in_existsb_false _ _ _ Hb Hin) as C.
    cbn in C. discriminate. }
  assert (Hsome : exists text,
             _get_fallback_response n (estimate l s) depression user_message
             = Ok text /\ In text canned_replies).
  { unfold _get_fallback_response, _get_sadness_response,
      _get_anger_response, _get_fear_response, _get_joy_response.
    cbn [item_label estimate label bind].
    repeat match goal with
           | |- context [if ?c then _ else _] => destruct c
           end;
      (eexists; split; [ reflexivity | canned ]). }
  destruct Hsome as (text & Hok & Hin).
  exists text. split; [ exact Hok | ]. split; [ exact Hin | ].
  split; [ apply Hnonempty; exact Hin | reflexivity ].
Qed.

(** ** Reply enhancement *)

Lemma enhance_prefix (response : string) (l : string) (s : Q)
    (depression : analysis) :
  exists suffix,
    _enhance_response_with_emotional_context response (estimate l s)
      depression
    = Ok (response ++ suffix).
Proof.
  unfold _enhance_response_with_emotional_context.
  cbn [item_label item_score estimate label score bind].
  repeat match goal with
         | |- context [if ?c then _ else _] => destruct c
         end;
    rewrite ?string_append_assoc;
    first [ eexists; reflexivity
          | exists ""; rewrite string_append_empty; reflexivity ].
Qed.

(** X11. No paragraph is appended when the emotion's confidence is at most 0.7
    and the depression score is at most 0.4 — nor when the level is high
    with a score of at most 0.7: a high reading between 0.6 and 0.7 gets
    neither the supportive-resources paragraph (it needs a score above 0.7)
    nor the encouragement one (it needs the level moderate). *)
Theorem enhance_leaves_mild_and_low_high_readings (response l : string)
    (s : Q) (depression : analysis) :
  s <= 0.7 ->
  depression_score depression <= 0.4
  \/ (depression_level depression = "high"
      /\ depression_score depression <= 0.7) ->
  _enhance_response_with_emotional_context response (estimate l s) depression
  = Ok response.
Proof.
  intros Hs Hd. unfold _enhance_response_with_emotional_context.
  cbn [item_label item_score estimate label score bind].
  assert (Es : Qltb 0.7 s = false) by (apply Qltb_ge; exact Hs).
  rewrite Es, !andb_false_r.
  destruct Hd as [Hd | [Hl Hd]].
  - assert (E7 : Qltb 0.7 (depression_score depression) = false)
      by (apply Qltb_ge; lra).
    assert (E4 : Qltb 0.4 (depression_score depression) = false)
      by (apply Qltb_ge; lra).
    rewrite E7, E4, !andb_false_r. reflexivity.
  - assert (E7 : Qltb 0.7 (depression_score depression) = false)
      by (apply Qltb_ge; lra).
    rewrite E7, Hl, andb_false_r. reflexivity.
Qed.

Lemma enhance_leaves_mild_and_low_high_readings_witness :
  _enhance_response_with_emotional_context "I hear you."
    (estimate "sadness" 0.7) high_reading
  = Ok "I hear you.".
Proof.
  apply (enhance_leaves_mild_and_low_high_readings "I hear you." "sadness"
           0.7 high_reading); [ lra | right; split; [ reflexivity | ] ].
  cbn. lra.
Defined.

(** ** What a turn does to the session *)

Section TurnEffects.

Variable Db : Type.
Variable update_one : Db -> string -> update -> exc Db.
Variable emotion_detector : EmotionDetector.
Variable path_exists : string -> bool.
Variable ollama : option (string -> list turn -> exc string).
Variable system_message : string -> Q -> string -> Q -> string.

Lemma analysis_step_keeps_history (w : world) (self : ChatService Db)
    (message : string) :
  conversation_history
    (snd (analysis_step update_one emotion_detector path_exists w self
            message))
  = conversation_history self.
Proof.
  unfold analysis_step, analyze.
  destruct (detect_depression _ _ _ _ _) as [da | x]; cbn [bind];
    [ | reflexivity ].
  destruct (db self) as [d | ]; [ | reflexivity ].
  destruct (arg_truthy (user_id self)); [ | reflexivity ].
  destruct (update_one _ _ _); reflexivity.
Qed.

Lemma respond_shape (w : world) (self : ChatService Db) (message : string)
    (e : emotion) (da : analysis) :
  (exists x,
      respond ollama system_message w self message e da = (self, Raise x))
  \/ (exists a suffix,
         role a = "assistant"
         /\ respond ollama system_message w self message e da
            = (append_history self a,
               Ok {| r_role := "assistant";
                     r_content := content a ++ suffix;
                     r_emotion := Some e;
                     r_depression := Some da |})).
Proof.
  unfold respond, item_label, item_score.
  destruct e as [[l | ] [s | ]]; cbn [label score bind];
    try (left; eexists; reflexivity).
  right.
  change {| label := Some l; score := Some s |} with (estimate l s).
  destruct (fallback_response_total (draw w) l s da message) as (fb & Hfb).
  rewrite Hfb.
  match goal with
  | |- context [match ?g with Ok _ => _ | Raise _ => _ end] =>
      assert (Hgen : exists text, g = Ok text)
  end.
  { destruct ollama as [chat | ]; [ | exists fb; reflexivity ].
    destruct (chat _ _) as [text | x]; eexists; reflexivity. }
  destruct Hgen as (text & ->).
  destruct (enhance_prefix text l s da) as (suffix & ->).
  exists {| role := "assistant"; content := text |}, suffix.
  split; reflexivity.
Qed.

Lemma send_message_history_shape (w : world) (self : ChatService Db)
    (message : string) :
  whitespace_only (Some message) = false ->
  exists a suffix,
    conversation_history
      (fst (send_message update_one emotion_detector path_exists ollama
              system_message w self (Some message)))
    = (conversation_history self
       ++ [ {| role := "user"; content := message |}; a ])%list
    /\ role a = "assistant"
    /\ r_role (snd (send_message update_one emotion_detector path_exists
                      ollama system_message w self (Some message)))
       = "assistant"
    /\ r_content (snd (send_message update_one emotion_detector path_exists
                         ollama system_message w self (Some message)))
       = content a ++ suffix.
Proof.
  intros Hmsg. unfold send_message.
  rewrite blank_whitespace_only, Hmsg. cbn [arg].
  pose proof (analysis_step_keeps_history w
                (append_history self {| role := "user"; content := message |})
                message) as Hh.
  destruct (analysis_step _ _ _ _ _ _) as [[er da] self2].
  cbn [snd] in Hh.
  destruct (respond_shape w self2 message er da)
    as [(x & ->) | (a & suffix & Ha & ->)].
  - exists fallback_message, "". cbn [fst snd append_history
      conversation_history r_role r_content].
    rewrite Hh. cbn [append_history conversation_history].
    rewrite <- app_assoc. repeat split.
  - exists a, suffix. cbn [fst snd append_history conversation_history
      r_role r_content].
    rewrite Hh. cbn [append_history conversation_history].
    rewrite <- app_assoc. repeat split; exact Ha.
Qed.

(** X12. A turn with a non-blank message extends the history by exactly two
    entries, the user's message and one assistant entry, whatever fails on
    the way; the text returned to the caller starts with the text of that
    entry (the appended paragraphs are returned but not kept). *)
Theorem send_message_extends_history (w : world) (self : ChatService Db)
    (message : string) :
  whitespace_only (Some message) = false ->
  exists a suffix,
    conversation_history
      (fst (send_message update_one emotion_detector path_exists ollama
              system_message w self (Some message)))
    = (conversation_history self
       ++ [ {| role := "user"; content := message |}; a ])%list
    /\ role a = "assistant"
    /\ r_role (snd (send_message update_one emotion_detector path_exists
                      ollama system_message w self (Some message)))
       = "assistant"
    /\ r_content (snd (send_message update_one emotion_detector path_exists
                         ollama system_message w self (Some message)))
       = content a ++ suffix.
Proof.
  exact (send_message_history_shape w self message).
Qed.

(** X13. Without a store, or with no user id or an empty one, a turn writes
    nothing: the store handle is unchanged and the outcome does not depend
    on the store's write operation at all. *)
Theorem send_message_without_user_stores_nothing
    (other_update_one : Db -> string -> update -> exc Db)
    (w : world) (self : ChatService Db) (message : option string) :
  db self = None \/ arg_truthy (user_id self) = false ->
  db (fst (send_message update_one emotion_detector path_exists ollama
             system_message w self message))
  = db self
  /\ send_message update_one emotion_detector path_exists ollama
       system_message w self message
     = send_message other_update_one emotion_detector path_exists ollama
         system_message w self message.
Proof.
  intros Hno.
  assert (Hstep : forall upd m,
             analysis_step upd emotion_detector path_exists w
               (append_history self {| role := "user"; content := m |}) m
             = match detect_depression emotion_detector path_exists (Some m)
                       None None with
               | Ok da =>
                   (detect_from_text emotion_detector m, da,
                    append_history self {| role := "user"; content := m |})
               | Raise _ =>
                   (unknown, unknown_analysis,
                    append_history self {| role := "user"; content := m |})
               end).
  { intros upd m. unfold analysis_step, analyze.
    destruct (detect_depression _ _ _ _ _) as [da | x]; cbn [bind];
      [ | reflexivity ].
    cbn [append_history db user_id].
    destruct Hno as [-> | ->]; [ reflexivity | ].
    destruct (db self); reflexivity. }
  unfold send_message.
  destruct (blank message); [ split; reflexivity | ].
  rewrite !Hstep. split; [ | reflexivity ].
  destruct (detect_depression _ _ _ _ _) as [da | x].
  - pose proof (respond_keeps_db Db ollama system_message w
                  (append_history self
                     {| role := "user"; content := arg message |})
                  (arg message)
                  (detect_from_text emotion_detector (arg message)) da) as Hk.
    destruct (respond _ _ _ _ _ _ _) as [s3 [r | y]]; exact Hk.
  - pose proof (respond_keeps_db Db ollama system_message w
                  (append_history self
                     {| role := "user"; content := arg message |})
                  (arg message) unknown unknown_analysis) as Hk.
    destruct (respond _ _ _ _ _ _ _) as [s3 [r | y]]; exact Hk.
Qed.

End TurnEffects.

Lemma send_message_extends_history_witness :
  exists a suffix,
    conversation_history
      (fst (send_message mem_update_one
              (constant_detector (estimate "sadness" 0.9)) (fun _ => false)
              None short_prompt world0 session0 (Some "I feel sad")))
    = (conversation_history session0
       ++ [ {| role := "user"; content := "I feel sad" |}; a ])%list
    /\ role a = "assistant"
    /\ r_role (snd (send_message mem_update_one
                      (constant_detector (estimate "sadness" 0.9))
                      (fun _ => false) None short_prompt world0 session0
                      (Some "I feel sad")))
       = "assistant"
    /\ r_content (snd (send_message mem_update_one
                         (constant_detector (estimate "sadness" 0.9))
                         (fun _ => false) None short_prompt world0 session0
                         (Some "I feel sad")))
       = content a ++ suffix.
Proof.
  apply (send_message_extends_history MemDb mem_update_one
           (constant_detector (estimate "sadness" 0.9)) (fun _ => false)
           None short_prompt world0 session0 "I feel sad").
  reflexivity.
Defined.

Lemma send_message_without_user_stores_nothing_witness :
  db (fst (send_message mem_update_one
             (constant_detector (estimate "sadness" 0.9)) (fun _ => false)
             None short_prompt world0 anonymous_session (Some "I feel sad")))
  = db anonymous_session
  /\ send_message mem_update_one
       (constant_detector (estimate "sadness" 0.9)) (fun _ => false)
       None short_prompt world0 anonymous_session (Some "I feel sad")
     = send_message down_update_one
         (constant_detector (estimate "sadness" 0.9)) (fun _ => false)
         None short_prompt world0 anonymous_session (Some "I feel sad").
Proof.
  apply (send_message_without_user_stores_nothing MemDb mem_update_one
           (constant_detector (estimate "sadness" 0.9)) (fun _ => false)
           None short_prompt down_update_one world0 anonymous_session
           (Some "I feel sad")).
  right. reflexivity.
Defined.

Lemma fuse_without_image_shape (t a : option emotion) :
  fuse_emotions t a None
  = Ok (if truthy t then the t else if truthy a then the a else unknown).
Proof.
  unfold fuse_emotions. cbn [truthy].
  rewrite !andb_false_r. cbn [andb].
  destruct (truthy t), (truthy a); reflexivity.
Qed.

Lemma detect_depression_text_total (self : EmotionDetector)
    (path_exists : string -> bool) (text : option string) :
  exists da,
    detect_depression self path_exists text None None = Ok da.
Proof.
  unfold detect_depression. cbn [arg_truthy andb].
  rewrite fuse_without_image_shape. eexists. reflexivity.
Qed.

(** X14. With a store that applies the update, a signed-in turn with a non-blank
    message appends exactly one event and one record, whatever the
    classifier and the backend do (a text-only analysis cannot fail): the
    event carries the message and the classifier's answer, the record the
    same depression score as the event, and [last_activity] is set. *)
Theorem send_message_stores_one_event (emotion_detector : EmotionDetector)
    (path_exists : string -> bool)
    (ollama : option (string -> list turn -> exc string))
    (system_message : string -> Q -> string -> Q -> string)
    (w : world) (self : ChatService MemDb) (message : string) (d : MemDb) :
  whitespace_only (Some message) = false ->
  db self = Some d ->
  arg_truthy (user_id self) = true ->
  exists e r d',
    db (fst (send_message mem_update_one emotion_detector path_exists ollama
               system_message w self (Some message)))
    = Some d'
    /\ emotional_data d' = (emotional_data d ++ [e])%list
    /\ depression_scores d' = (depression_scores d ++ [r])%list
    /\ last_activity d' = Some (utcnow3 w)
    /\ ev_source e = "chat" /\ ev_text e = message
    /\ ev_emotion e = detect_from_text emotion_detector message
    /\ ev_depression_score e = dr_score r.
Proof.
  intros Hmsg Hdb Huid.
  destruct (detect_depression_text_total emotion_detector path_exists
              (Some message)) as (da & Hda).
  unfold send_message. rewrite blank_whitespace_only, Hmsg. cbn [arg].
  unfold analysis_step, analyze. rewrite Hda.
  cbn [bind append_history db user_id]. rewrite Hdb, Huid.
  unfold mem_update_one at 1. cbn [bind].
  match goal with
  | |- context [respond ?o ?p ?w ?s ?m ?e ?a] =>
      pose proof (respond_keeps_db MemDb o p w s m e a) as Hk;
      destruct (respond o p w s m e a) as [s3 [rp | x]]
  end; cbn [fst] in Hk |- *; cbn [append_history db]; rewrite Hk;
    cbn [with_db db]; eexists _, _, _; (split; [ reflexivity | ]);
    cbn [emotional_data depression_scores last_activity chat_update
           push_emotional_data push_depression_scores set_last_activity
           ev_source ev_text ev_emotion ev_depression_score dr_score];
    repeat split; reflexivity.
Qed.

Lemma send_message_stores_one_event_witness :
  exists e r d',
    db (fst (send_message mem_update_one (constant_detector unlabelled)
               (fun _ => false) None short_prompt world0 session0
               (Some "I feel bad")))
    = Some d'
    /\ emotional_data d' = (emotional_data empty_db ++ [e])%list
    /\ depression_scores d' = (depression_scores empty_db ++ [r])%list
    /\ last_activity d' = Some (utcnow3 world0)
    /\ ev_source e = "chat" /\ ev_text e = "I feel bad"
    /\ ev_emotion e
       = detect_from_text (constant_detector unlabelled) "I feel bad"
    /\ ev_depression_score e = dr_score r.
Proof.
  apply (send_message_stores_one_event (constant_detector unlabelled)
           (fun _ => false) None short_prompt world0 session0 "I feel bad"
           empty_db); reflexivity.
Defined.

(** ** The shared instance *)

(** X15. The one shared instance is handed from user to user with its history:
    after a turn of one user, [get_chat_service] for another user returns
    an instance with the new store handle and user id whose history still
    holds the first user's message.  Only [start_chat] clears it, leaving
    the one welcome message. *)
Theorem get_chat_service_hands_over_history (Db : Type)
    (update_one : Db -> string -> update -> exc Db)
    (emotion_detector : EmotionDetector) (path_exists : string -> bool)
    (ollama : option (string -> list turn -> exc string))
    (system_message : string -> Q -> string -> Q -> string)
    (w w' : world) (first : ChatService Db) (message : string)
    (db' : option Db) (user_id' : option string) (chat_type : string) :
  whitespace_only (Some message) = false ->
  let after_turn :=
    fst (send_message update_one emotion_detector path_exists ollama
           system_message w first (Some message)) in
  let second := snd (get_chat_service (Some after_turn) db' user_id') in
  db second = db' /\ user_id second = user_id'
  /\ In {| role := "user"; content := message |}
       (conversation_history second)
  /\ exists welcome,
       conversation_history (fst (start_chat w' second chat_type))
       = [ {| role := "assistant"; content := welcome |} ]
       /\ In welcome welcome_messages.
Proof.
  intros Hmsg after_turn second.
  destruct (send_message_history_shape Db update_one emotion_detector
              path_exists ollama system_message w first message Hmsg)
    as (a & suffix & Hh & _).
  fold after_turn in Hh.
  unfold second, get_chat_service. cbn [snd db user_id conversation_history].
  split; [ reflexivity | ]. split; [ reflexivity | ].
  split.
  - rewrite Hh. apply in_or_app. right. left. reflexivity.
  - eexists. unfold start_chat.
    cbn [fst conversation_history app]. split; [ reflexivity | ].
    apply choice_in. discriminate.
Qed.

Lemma get_chat_service_hands_over_history_witness :
  In {| role := "user"; content := "I feel bad" |}
    (conversation_history
       (snd (get_chat_service
               (Some (fst (send_message mem_update_one
                             (constant_detector (estimate "sadness" 0.9))
                             (fun _ => false) None short_prompt world0
                             session0 (Some "I feel bad"))))
               (Some empty_db) (Some "64e5f0c2a1b2c3d4e5f60719")))).
Proof.
  destruct (get_chat_service_hands_over_history MemDb mem_update_one
              (constant_detector (estimate "sadness" 0.9)) (fun _ => false)
              None short_prompt world0 world0 session0 "I feel bad"
              (Some empty_db) (Some "64e5f0c2a1b2c3d4e5f60719") "text"
              eq_refl) as (_ & _ & H & _).
  exact H.
Defined.

(** ** The upload filter *)

Lemma prefix_dot (c : ascii) (r : string) :
  String.prefix "." (String c r) = Ascii.eqb c ".".
Proof.
  change (String.prefix "." (String c r))
    with (if ascii_dec "."%char c then String.prefix "" r else false).
  destruct (ascii_dec "."%char c) as [<- | Hne].
  - destruct r; reflexivity.
  - symmetry. apply Ascii.eqb_neq. intros E. apply Hne. symmetry. exact E.
Qed.

Lemma contains_dot_cons (c : ascii) (r : string) :
  contains "." (String c r) = (Ascii.eqb c "." || contains "." r)%bool.
Proof.
  change (contains "." (String c r))
    with (if String.prefix "." (String c r) then true else contains "." r).
  rewrite prefix_dot. destruct (Ascii.eqb c "."); reflexivity.
Qed.

Lemma rsplit_dot_none (s : string) :
  contains "." s = false -> rsplit_dot s = None.
Proof.
  induction s as [ | c r IH ]; [ reflexivity | ].
  rewrite contains_dot_cons. intros H.
  apply orb_false_iff in H as [Hc Hr].
  cbn. rewrite (IH Hr), Hc. reflexivity.
Qed.

Lemma rsplit_dot_last (base ext : string) :
  contains "." ext = false ->
  rsplit_dot (base ++ "." ++ ext) = Some (base, ext).
Proof.
  intros Hext. induction base as [ | c b IH ].
  - cbn. rewrite (rsplit_dot_none ext Hext). reflexivity.
  - cbn [append rsplit_dot]. cbn [append] in IH. rewrite IH. reflexivity.
Qed.

Lemma contains_dot_append (base rest : string) :
  contains "." (base ++ "." ++ rest) = true.
Proof.
  induction base as [ | c b IH ].
  - cbn [append]. rewrite contains_dot_cons. reflexivity.
  - cbn [append]. rewrite contains_dot_cons.
    cbn [append] in IH. rewrite IH. apply orb_true_r.
Qed.

(** X16. Only the text after the last dot decides, in any letter case: a name
    [base.ext] is accepted exactly when [ext], in lower case, is png, jpg or
    jpeg — so "photo.JPG" and the bare ".png" pass and "photo.png.exe" does
    not — and a name without a dot is refused. *)
Theorem allowed_file_last_extension (base ext : string) :
  contains "." ext = false ->
  allowed_file (base ++ "." ++ ext)
  = existsb (String.eqb (lower ext)) ALLOWED_EXTENSIONS
  /\ allowed_file ext = false.
Proof.
  intros Hext. unfold allowed_file, rsplit1. split.
  - rewrite contains_dot_append, (rsplit_dot_last base ext Hext).
    reflexivity.
  - rewrite Hext. reflexivity.
Qed.

Lemma allowed_file_last_extension_witness :
  allowed_file "holiday.photo.JPG" = true
  /\ allowed_file "JPG" = false.
Proof.
  destruct (allowed_file_last_extension "holiday.photo" "JPG" eq_refl)
    as [H1 H2].
  split; [ exact H1 | exact H2 ].
Defined.

(** ** Stable sorting *)

Section StableSort.

Variable A : Type.
Variable before : A -> A -> bool.
Hypothesis before_total : forall x y, before x y = false -> before y x = true.
Hypothesis before_trans :
  forall x y z, before x y = true -> before y z = true -> before x z = true.

Lemma insert_sorted_perm (x : A) (l : list A) :
  Permutation (insert_sorted before x l) (x :: l).
Proof.
  induction l as [ | y r IH ]; cbn; [ apply Permutation_refl | ].
  destruct (before x y); [ apply Permutation_refl | ].
  apply Permutation_trans with (y :: x :: r);
    [ apply perm_skip; exact IH | apply perm_swap ].
Qed.

Lemma stable_sort_perm (l : list A) : Permutation (stable_sort before l) l.
Proof.
  induction l as [ | x r IH ]; cbn; [ apply perm_nil | ].
  apply Permutation_trans with (x :: stable_sort before r);
    [ apply insert_sorted_perm | apply perm_skip; exact IH ].
Qed.

Lemma insert_sorted_sorted (x : A) (l : list A) :
  StronglySorted (fun a b => before a b = true) l ->
  StronglySorted (fun a b => before a b = true) (insert_sorted before x l).
Proof.
  induction l as [ | y r IH ]; intros Hs; cbn.
  - constructor; constructor.
  - inversion Hs as [ | ? ? Hr Hy ]; subst.
    destruct (before x y) eqn:E.
    + constructor; [ exact Hs | ].
      constructor; [ exact E | ].
      rewrite Forall_forall in Hy |- *. intros z Hz.
      apply (before_trans x y z E (Hy z Hz)).
    + constructor; [ apply IH; exact Hr | ].
      rewrite Forall_forall in Hy |- *. intros z Hz.
      apply (Permutation_in _ (insert_sorted_perm x r)) in Hz.
      destruct Hz as [<- | Hz]; [ apply before_total; exact E | ].
      apply Hy. exact Hz.
Qed.

Lemma stable_sort_sorted (l : list A) :
  StronglySorted (fun a b => before a b = true) (stable_sort before l).
Proof.
  induction l as [ | x r IH ]; cbn; [ constructor | ].
  apply insert_sorted_sorted. exact IH.
Qed.

Lemma strongly_sorted_split (pre post : list A) :
  StronglySorted (fun a b => before a b = true) (pre ++ post) ->
  forall o r, In o pre -> In r post -> before o r = true.
Proof.
  induction pre as [ | x pre IH ]; intros Hs o r Ho Hr; [ contradiction | ].
  cbn in Hs. inversion Hs as [ | ? ? Hrest Hx ]; subst.
  destruct Ho as [<- | Ho].
  - rewrite Forall_forall in Hx. apply Hx. apply in_or_app. right. exact Hr.
  - apply (IH Hrest o r Ho Hr).
Qed.

(** The first [n] of the sorted list and what they leave out. *)
Lemma stable_sort_firstn (n : nat) (l : list A) :
  exists rest,
    Permutation (firstn n (stable_sort before l) ++ rest) l
    /\ List.length (firstn n (stable_sort before l))
       = Nat.min n (List.length l)
    /\ StronglySorted (fun a b => before a b = true)
         (firstn n (stable_sort before l))
    /\ (forall kept left, In kept (firstn n (stable_sort before l)) ->
        In left rest -> before kept left = true).
Proof.
  exists (skipn n (stable_sort before l)).
  pose proof (stable_sort_sorted l) as Hs.
  rewrite <- (firstn_skipn n (stable_sort before l)) in Hs.
  split; [ rewrite firstn_skipn; apply stable_sort_perm | ].
  split.
  { rewrite length_firstn, (Permutation_length (stable_sort_perm l)).
    reflexivity. }
  split.
  { revert Hs. generalize (firstn n (stable_sort before l)).
    intros pre. induction pre as [ | x pre IH ]; intros Hs;
      [ constructor | ].
    cbn in Hs. inversion Hs as [ | ? ? Hrest Hx ]; subst.
    constructor; [ apply IH; exact Hrest | ].
    rewrite Forall_forall in Hx |- *. intros z Hz. apply Hx.
    apply in_or_app. left. exact Hz. }
  apply strongly_sorted_split. exact Hs.
Qed.

End StableSort.

Lemma strongly_sorted_impl (A : Type) (R R' : A -> A -> Prop) (l : list A) :
  (forall a b, R a b -> R' a b) -> StronglySorted R l -> StronglySorted R' l.
Proof.
  intros Himpl Hs. induction Hs as [ | x r Hr IH Hx ]; constructor;
    [ exact IH | ].
  rewrite Forall_forall in Hx |- *. intros z Hz. apply Himpl, Hx, Hz.
Qed.

(** ** The trend chart *)

(** X17. [get_depression_trend] shows the 30 newest records, all of them when
    there are fewer, newest first, each as one chart point; no record left
    out is newer than one shown. *)
Theorem depression_trend_newest_thirty (strftime : Z -> string)
    (depression_scores : list depression_record) :
  get_depression_trend strftime depression_scores
  = map (fun score =>
           {| date := strftime (dr_timestamp score);
              point_score := dr_score score;
              point_level := dr_level score |})
      (trend_records depression_scores)
  /\ List.length (get_depression_trend strftime depression_scores)
     = Nat.min 30 (List.length depression_scores)
  /\ StronglySorted (fun a b => (dr_timestamp b <= dr_timestamp a)%Z)
       (trend_records depression_scores)
  /\ exists left_out,
       Permutation (trend_records depression_scores ++ left_out)
         depression_scores
       /\ forall shown older, In shown (trend_records depression_scores) ->
          In older left_out ->
          (dr_timestamp older <= dr_timestamp shown)%Z.
Proof.
  set (before := fun x y : depression_record =>
                   (dr_timestamp y <=? dr_timestamp x)%Z).
  assert (Htotal : forall x y, before x y = false -> before y x = true).
  { unfold before. intros x y H. apply Z.leb_gt in H. apply Z.leb_le. lia. }
  assert (Htrans : forall x y z,
             before x y = true -> before y z = true -> before x z = true).
  { unfold before. intros x y z H1 H2.
    apply Z.leb_le in H1, H2. apply Z.leb_le. lia. }
  destruct (stable_sort_firstn depression_record before Htotal Htrans 30
              depression_scores) as (rest & Hperm & Hlen & Hsorted & Hsplit).
  fold (trend_records depression_scores) in Hperm, Hlen, Hsorted, Hsplit.
  split; [ reflexivity | ].
  split; [ unfold get_depression_trend; rewrite length_map; exact Hlen | ].
  split.
  { apply (strongly_sorted_impl _ (fun a b => before a b = true));
      [ | exact Hsorted ].
    intros a b Hab. apply Z.leb_le. exact Hab. }
  exists rest. split; [ exact Hperm | ].
  intros shown older Hs Ho. apply Z.leb_le. apply (Hsplit shown older Hs Ho).
Qed.

(** ** Means stay within the scores *)

Lemma len_cons {A : Type} (x : A) (l : list A) : len (x :: l) == len l + 1.
Proof.
  unfold len. cbn [List.length]. rewrite Nat2Z.inj_succ, <- Z.add_1_r.
  rewrite inject_Z_plus. reflexivity.
Qed.

Lemma len_nonneg {A : Type} (l : list A) : 0 <= len l.
Proof.
  unfold len. change 0 with (inject_Z 0). rewrite <- Zle_Qle. lia.
Qed.

Lemma fold_sum_bounds (lo hi : Q) (xs : list Q) (acc : Q) :
  Forall (fun x => lo <= x <= hi) xs ->
  acc + lo * len xs <= fold_left Qplus xs acc
  /\ fold_left Qplus xs acc <= acc + hi * len xs.
Proof.
  intros H. revert acc. induction H as [ | x r Hx Hr IH ]; intros acc.
  - cbn [fold_left]. change (len (@nil Q)) with 0. lra.
  - cbn [fold_left]. destruct (IH (acc + x)) as [Hlo Hhi].
    rewrite len_cons. lra.
Qed.

Lemma mean_bounds (lo hi : Q) (xs : list Q) :
  xs <> [] -> Forall (fun x => lo <= x <= hi) xs ->
  lo <= sum xs / len xs <= hi.
Proof.
  intros Hne H. destruct (fold_sum_bounds lo hi xs 0 H) as [Hlo Hhi].
  assert (Hpos : 0 < len xs).
  { destruct xs as [ | x r ]; [ contradiction | ].
    rewrite len_cons. pose proof (len_nonneg r). lra. }
  unfold sum. split.
  - apply Qle_shift_div_l; [ exact Hpos | lra ].
  - apply Qle_shift_div_r; [ exact Hpos | lra ].
Qed.

(** X18. The mean behind the risk badge lies between the smallest and the
    largest stored score: with scores in [0,1] the mean and the score shown
    on the dashboard are in [0,1], also for a user without any record. *)
Theorem dashboard_score_in_unit_interval
    (depression_scores : list depression_record) :
  (forall r, In r depression_scores -> 0 <= dr_score r <= 1) ->
  0 <= avg_score depression_scores <= 1
  /\ 0 <= snd (dashboard depression_scores) <= 1.
Proof.
  intros Hunit.
  assert (Havg : 0 <= avg_score depression_scores <= 1).
  { destruct (avg_score_mean depression_scores) as [[_ ->] | [Hne ->]];
      [ lra | ].
    destruct (recent_scores_window depression_scores)
      as (older & Hsorted & Hperm & Hlen & _).
    assert (Hne' : map dr_score (recent_scores depression_scores) <> []).
    { intros E. apply (f_equal (@List.length Q)) in E.
      rewrite length_map, Hlen in E. cbn in E.
      destruct depression_scores; [ contradiction | discriminate ]. }
    assert (Hlenmap : len (recent_scores depression_scores)
                      = len (map dr_score (recent_scores depression_scores))).
    { unfold len. rewrite length_map. reflexivity. }
    rewrite Hlenmap. apply mean_bounds; [ exact Hne' | ].
    rewrite Forall_forall. intros x Hx.
    apply in_map_iff in Hx as (r & <- & Hr).
    apply Hunit. apply (Permutation_in _ Hperm).
    apply in_or_app. right. exact Hr. }
  split; [ exact Havg | ].
  unfold dashboard. cbn [snd]. apply round2_unit. exact Havg.
Qed.

Lemma dashboard_score_in_unit_interval_witness :
  0 <= avg_score [ boundary_record ] <= 1
  /\ 0 <= snd (dashboard [ boundary_record ]) <= 1.
Proof.
  apply (dashboard_score_in_unit_interval [ boundary_record ]).
  intros r [<- | []]. cbn. lra.
Defined.

(** ** The report *)

(** X19. A report always carries three recommendations, the first being the
    universal one, and the other two always belong to the tier of the
    summary text: both are chosen by the same comparisons of the same
    mean. *)
Theorem report_recommendations_match_summary
    (emotional_data : list event_doc) :
  List.length (report_recommendations (build_report emotional_data)) = 3%nat
  /\ ((0.6 < report_depression_score (build_report emotional_data)
       /\ report_summary_text (build_report emotional_data) = summary_high
       /\ map title (report_recommendations (build_report emotional_data))
          = [ "Practice Mindfulness"; "Seek Professional Support";
              "Establish Daily Routine" ])
      \/ (0.3 < report_depression_score (build_report emotional_data)
          /\ report_depression_score (build_report emotional_data) <= 0.6
          /\ report_summary_text (build_report emotional_data)
             = summary_moderate
          /\ map title (report_recommendations (build_report emotional_data))
             = [ "Practice Mindfulness"; "Physical Activity";
                 "Social Connection" ])
      \/ (report_depression_score (build_report emotional_data) <= 0.3
          /\ report_summary_text (build_report emotional_data) = summary_low
          /\ map title (report_recommendations (build_report emotional_data))
             = [ "Practice Mindfulness"; "Maintain Healthy Habits";
                 "Preventive Self-Care" ])).
Proof.
  unfold build_report.
  cbn [report_recommendations report_depression_score report_summary_text].
  match goal with
  | |- context [summary_of ?a] => generalize a
  end.
  intros avg. unfold recommendations, summary_of.
  by_cases_Qltb 0.6 avg.
  - split; [ reflexivity | left ]. repeat split; assumption.
  - by_cases_Qltb 0.3 avg.
    + split; [ reflexivity | right; left ]. repeat split; assumption.
    + split; [ reflexivity | right; right ]. repeat split; assumption.
Qed.

Lemma list_sum_cons (x : nat) (l : list nat) :
  list_sum (x :: l) = (x + list_sum l)%nat.
Proof.
  reflexivity.
Qed.

Lemma count_add_total (l : string) (s : Q) (d : count_dict) :
  list_sum (map (fun kv => fst (snd kv)) (count_add l s d))
  = S (list_sum (map (fun kv => fst (snd kv)) d)).
Proof.
  induction d as [ | [k [c t]] r IH ]; [ reflexivity | ].
  cbn [count_add]. destruct (String.eqb l k); cbn [map fst snd].
  - rewrite !list_sum_cons. lia.
  - rewrite !list_sum_cons, IH. lia.
Qed.

Lemma count_add_positive (l : string) (s : Q) (d : count_dict) :
  Forall (fun kv => (1 <= fst (snd kv))%nat) d ->
  Forall (fun kv => (1 <= fst (snd kv))%nat) (count_add l s d).
Proof.
  induction d as [ | [k [c t]] r IH ]; intros H; cbn.
  - constructor; [ cbn; lia | constructor ].
  - inversion H as [ | ? ? Hk Hr ]; subst.
    destruct (String.eqb l k); constructor; cbn in *; try lia; auto.
Qed.

Lemma emotions_count_fold (recent : list event_doc) (acc : count_dict) :
  Forall (fun kv => (1 <= fst (snd kv))%nat) acc ->
  let result :=
    fold_left
      (fun d entry =>
         match doc_emotion entry with
         | Some e =>
             count_add (lower (get_label e "neutral")) (get_score e 0) d
         | None => d
         end) recent acc in
  list_sum (map (fun kv => fst (snd kv)) result)
  = (list_sum (map (fun kv => fst (snd kv)) acc)
     + List.length (filter has_emotion recent))%nat
  /\ Forall (fun kv => (1 <= fst (snd kv))%nat) result.
Proof.
  revert acc. induction recent as [ | entry r IH ]; intros acc Hacc;
    cbn zeta; cbn [fold_left filter].
  - split; [ cbn [List.length]; lia | exact Hacc ].
  - unfold has_emotion at 1. destruct (doc_emotion entry) as [e | ].
    + destruct (IH (count_add (lower (get_label e "neutral"))
                      (get_score e 0) acc)
                  (count_add_positive _ _ _ Hacc)) as [Hsum Hpos].
      cbn zeta in Hsum, Hpos. rewrite Hsum, count_add_total.
      split; [ cbn [List.length]; lia | exact Hpos ].
    + apply IH. exact Hacc.
Qed.

Lemma list_sum_perm (l l' : list nat) :
  Permutation l l' -> list_sum l = list_sum l'.
Proof.
  intros H. induction H; rewrite ?list_sum_cons; lia.
Qed.

(** X20. The per-emotion breakdown accounts for every event of the window that
    has an emotion exactly once: the counts of its rows add up to the number
    of such events, every row counts at least one event, and the rows come
    in order of falling mean confidence. *)
Theorem report_breakdown_counts_every_event
    (emotional_data : list event_doc) :
  list_sum (map row_count (report_emotions (build_report emotional_data)))
  = List.length (filter has_emotion (recent_data emotional_data))
  /\ Forall (fun row => (1 <= row_count row)%nat)
       (report_emotions (build_report emotional_data))
  /\ StronglySorted (fun a b => row_score b <= row_score a)
       (report_emotions (build_report emotional_data))
  /\ (List.length (report_emotions (build_report emotional_data))
      <= List.length (filter has_emotion (recent_data emotional_data)))%nat.
Proof.
  unfold build_report. cbn [report_emotions]. unfold emotions.
  set (before := fun x y : emotion_row =>
                   Qle_bool (row_score y) (row_score x)).
  set (rows := map _ (emotions_count (recent_data emotional_data))).
  destruct (emotions_count_fold (recent_data emotional_data) []
              (Forall_nil _)) as [Hsum Hpos].
  cbn zeta in Hsum, Hpos. fold (emotions_count (recent_data emotional_data))
    in Hsum, Hpos. cbn [map list_sum Nat.add] in Hsum.
  assert (Hrows_count :
            map row_count rows
            = map (fun kv => fst (snd kv))
                (emotions_count (recent_data emotional_data))).
  { unfold rows. rewrite map_map. apply map_ext.
    intros [k [c t]]. reflexivity. }
  pose proof (stable_sort_perm emotion_row before rows) as Hperm.
  assert (Htotal : list_sum (map row_count (stable_sort before rows))
                   = List.length
                       (filter has_emotion (recent_data emotional_data))).
  { rewrite (list_sum_perm _ _ (Permutation_map row_count Hperm)).
    rewrite Hrows_count. exact Hsum. }
  assert (Hall : Forall (fun row => (1 <= row_count row)%nat)
                   (stable_sort before rows)).
  { rewrite Forall_forall. intros row Hrow.
    apply (Permutation_in _ Hperm) in Hrow. unfold rows in Hrow.
    apply in_map_iff in Hrow as ([k [c t]] & <- & Hin).
    rewrite Forall_forall in Hpos. apply (Hpos _ Hin). }
  split; [ exact Htotal | ]. split; [ exact Hall | ]. split.
  - apply (strongly_sorted_impl _ (fun a b => before a b = true)).
    + intros a b Hab. apply Qle_bool_iff. exact Hab.
    + apply stable_sort_sorted.
      * unfold before. intros x y H.
        apply Qle_bool_iff. apply Qlt_le_weak. apply Qnot_le_lt.
        intros Hle. apply Qle_bool_iff in Hle. congruence.
      * unfold before. intros x y z H1 H2.
        apply Qle_bool_iff in H1, H2. apply Qle_bool_iff. lra.
  - rewrite <- Htotal. clear - Hall.
    induction Hall as [ | row l Hrow Hl IH ]; [ cbn; lia | ].
    cbn [map List.length]. rewrite list_sum_cons. lia.
Qed.

Lemma recent_data_subset (emotional_data : list event_doc) (d : event_doc) :
  In d (recent_data emotional_data) -> In d emotional_data.
Proof.
  unfold recent_data. intros H.
  apply (Permutation_in d
           (stable_sort_perm event_doc
              (fun x y => ts_leb (doc_timestamp y) (doc_timestamp x))
              emotional_data)).
  rewrite <- (firstn_skipn 20). apply in_or_app. left. exact H.
Qed.

(** X21. For a user without usable data — no event at all, or only events that
    carry neither an emotion nor a depression score — the report has score
    0, the low-risk summary, an empty breakdown, the "not enough data"
    analysis and the universal plus the two low-tier recommendations. *)
Theorem report_without_data (emotional_data : list event_doc) :
  (forall d, In d emotional_data ->
             doc_emotion d = None /\ doc_depression_score d = None) ->
  report_depression_score (build_report emotional_data) = 0
  /\ report_emotions (build_report emotional_data) = []
  /\ report_summary_text (build_report emotional_data) = summary_low
  /\ report_emotion_analysis (build_report emotional_data)
     = "There isn't enough emotional data to provide a detailed analysis."
  /\ map title (report_recommendations (build_report emotional_data))
     = [ "Practice Mindfulness"; "Maintain Healthy Habits";
         "Preventive Self-Care" ].
Proof.
  intros Hnone.
  assert (Hrecent : forall d, In d (recent_data emotional_data) ->
            doc_emotion d = None /\ doc_depression_score d = None).
  { intros d Hd. apply Hnone, recent_data_subset, Hd. }
  unfold build_report. generalize dependent (recent_data emotional_data).
  intros recent Hrecent.
  assert (Hscores :
            flat_map (fun entry => match doc_depression_score entry with
                                   | Some s => [s] | None => [] end) recent
            = []).
  { induction recent as [ | d r IH ]; [ reflexivity | ].
    cbn [flat_map]. destruct (Hrecent d (or_introl eq_refl)) as [_ ->].
    apply IH. intros d' Hd'. apply Hrecent. right. exact Hd'. }
  assert (Hcount : forall acc,
            fold_left
              (fun d entry =>
                 match doc_emotion entry with
                 | Some e => count_add (lower (get_label e "neutral"))
                               (get_score e 0) d
                 | None => d
                 end) recent acc = acc).
  { induction recent as [ | d r IH ]; intros acc; [ reflexivity | ].
    cbn [fold_left]. destruct (Hrecent d (or_introl eq_refl)) as [-> _].
    apply IH.
    - intros d' Hd'. apply Hrecent. right. exact Hd'.
    - cbn [flat_map] in Hscores.
      destruct (Hrecent d (or_introl eq_refl)) as [_ Hd].
      rewrite Hd in Hscores. exact Hscores. }
  cbn [report_depression_score report_emotions report_summary_text
         report_emotion_analysis report_recommendations].
  rewrite Hscores. unfold emotions, emotions_count. rewrite Hcount.
  repeat split; reflexivity.
Qed.

Lemma report_without_data_witness :
  report_depression_score (build_report [ bare_event ]) = 0
  /\ report_emotions (build_report [ bare_event ]) = []
  /\ report_summary_text (build_report [ bare_event ]) = summary_low
  /\ report_emotion_analysis (build_report [ bare_event ])
     = "There isn't enough emotional data to provide a detailed analysis."
  /\ map title (report_recommendations (build_report [ bare_event ]))
     = [ "Practice Mindfulness"; "Maintain Healthy Habits";
         "Preventive Self-Care" ].
Proof.
  apply (report_without_data [ bare_event ]).
  intros d [<- | []]. split; reflexivity.
Defined.


(** ** The chat route *)

(** X22. The chat route answers a request without a session with 401, a
    missing or empty message with 400 and a whitespace-only message with 200
    and the clarification reply; in all three cases the history of the
    shared instance stays as it was and nothing is written to the store. *)
Theorem chat_route_blank_message (Db : Type)
    (update_one : Db -> string -> update -> exc Db)
    (emotion_detector : EmotionDetector) (path_exists : string -> bool)
    (ollama : option (string -> list turn -> exc string))
    (system_message : string -> Q -> string -> Q -> string)
    (w : world) (chat_service : option (ChatService Db)) (db : Db)
    (session_user_id data_message : option string) :
  session_user_id = None \/ whitespace_only data_message = true ->
  let result :=
    chat_message update_one emotion_detector path_exists ollama
      system_message w chat_service db session_user_id data_message in
  history_of (fst result) = history_of chat_service
  /\ (session_user_id = None -> status (snd result) = 401%nat)
  /\ (session_user_id <> None ->
      data_message = None \/ data_message = Some "" ->
      status (snd result) = 400%nat /\ fst result = chat_service)
  /\ (session_user_id <> None ->
      data_message <> None -> data_message <> Some "" ->
      status (snd result) = 200%nat
      /\ response (snd result) = Some clarification
      /\ forall other_update_one,
           chat_message other_update_one emotion_detector path_exists ollama
             system_message w chat_service db session_user_id data_message
           = result).
Proof.
  intros Hblank result. unfold result, chat_message.
  destruct session_user_id as [uid | ].
  - destruct Hblank as [Hno | Hws]; [ discriminate | ].
    destruct data_message as [m | ]; cbn [str_truthy negb].
    + destruct m as [ | c r ]; cbn [str_truthy negb].
      * repeat split; try discriminate; intros; congruence.
      * assert (Hsend : forall (upd : Db -> string -> update -> exc Db)
                               (s : ChatService Db),
                   send_message upd emotion_detector path_exists ollama
                     system_message w s (Some (String c r))
                   = (s, clarification)).
        { intros upd s. unfold send_message.
          rewrite blank_whitespace_only, Hws. reflexivity. }
        unfold get_chat_service.
        destruct chat_service as [existing | ]; rewrite Hsend;
          cbn [fst snd history_of conversation_history status response
                 new_service];
          (split; [ reflexivity | ]); (split; [ congruence | ]);
          (split; [ intros _ [E | E]; discriminate | ]);
          intros _ _ _; (split; [ reflexivity | ]);
          (split; [ reflexivity | ]); intros upd; rewrite Hsend; reflexivity.
    + repeat split; try discriminate; intros; congruence.
  - cbn [fst snd status]. repeat split; intros; congruence.
Qed.

Lemma chat_route_blank_message_witness :
  status (snd (chat_message mem_update_one
                 (constant_detector (estimate "sadness" 0.9))
                 (fun _ => false) None short_prompt world0 (Some session0)
                 empty_db (Some "64e5f0c2a1b2c3d4e5f60718") (Some "   ")))
  = 200%nat
  /\ response (snd (chat_message mem_update_one
                      (constant_detector (estimate "sadness" 0.9))
                      (fun _ => false) None short_prompt world0
                      (Some session0) empty_db
                      (Some "64e5f0c2a1b2c3d4e5f60718") (Some "   ")))
     = Some clarification.
Proof.
  destruct (chat_route_blank_message MemDb mem_update_one
              (constant_detector (estimate "sadness" 0.9)) (fun _ => false)
              None short_prompt world0 (Some session0) empty_db
              (Some "64e5f0c2a1b2c3d4e5f60718") (Some "   "))
    as (_ & _ & _ & H); [ right; reflexivity | ].
  destruct H as (H1 & H2 & _); try discriminate.
  split; [ exact H1 | exact H2 ].
Defined.
